(** * pykis: a shallow embedding of the brokerage REST client

    The development follows the two Python modules of the package:
    [oversea_info] (market and country tables) and [public_api]
    (the [Api] class, its request builders, the account-scoped
    queries and the order entry points).  Python dictionaries with
    string keys are finite maps [gmap string string]; exceptions are
    values of [Exn]; the client object and the HTTP traffic it causes
    are threaded explicitly through a state-and-exception monad. *)

From Stdlib Require Import ZArith Floats.SpecFloat.
From stdpp Require Import base option list strings pretty gmap.

Local Open Scope string_scope.
Local Open Scope list_scope.
Local Open Scope Z_scope.

Set Default Proof Using "Type".

(** ** Python exceptions and results *)

Inductive Exn : Type :=
  | RuntimeError (msg : string)
  | KeyError (key : string)
  | ValueError (msg : string)
  | AttributeError (msg : string)
  | IndexError (msg : string)
  | TypeError (msg : string)
  | TransportError (msg : string).

Inductive Result (A : Type) : Type :=
  | Ok (a : A)
  | Raise (e : Exn).
Arguments Ok {A} a.
Arguments Raise {A} e.

Definition is_Raise {A} (r : Result A) : Prop :=
  match r with Ok _ => False | Raise _ => True end.

(** ** Module [oversea_info] *)

Module OverseaInfo.

Inductive Country : Type := USA | HK | JP | CN_SHA | CN_SZX | VN.

Inductive Market : Type :=
  NASD | NYSE | AMEX | SEHK | TKSE | SHAA | SZAA | HASE | VNSE.

Definition Country_value (c : Country) : Z :=
  match c with
  | USA => 0 | HK => 1 | JP => 2 | CN_SHA => 3 | CN_SZX => 4 | VN => 5
  end.

Definition Country_name (c : Country) : string :=
  match c with
  | USA => "USA" | HK => "HK" | JP => "JP"
  | CN_SHA => "CN_SHA" | CN_SZX => "CN_SZX" | VN => "VN"
  end.

Definition Market_value (m : Market) : Z :=
  match m with
  | NASD => 0 | NYSE => 1 | AMEX => 2
  | SEHK => 10
  | TKSE => 20
  | SHAA => 30 | SZAA => 40
  | HASE => 50 | VNSE => 51
  end.

Definition Market_name (m : Market) : string :=
  match m with
  | NASD => "NASD" | NYSE => "NYSE" | AMEX => "AMEX"
  | SEHK => "SEHK"
  | TKSE => "TKSE"
  | SHAA => "SHAA" | SZAA => "SZAA"
  | HASE => "HASE" | VNSE => "VNSE"
  end.

(** Members in definition order, as iterating the class yields them. *)
Definition Country_members : list Country :=
  [USA; HK; JP; CN_SHA; CN_SZX; VN].

Definition Market_members : list Market :=
  [NASD; NYSE; AMEX; SEHK; TKSE; SHAA; SZAA; HASE; VNSE].

(** [Market.get_all()]: [[e.name for e in cls]]. *)
Definition Market_get_all : list string := Market_name <$> Market_members.

Definition Country_get_all : list string := Country_name <$> Country_members.

(** [Market[code]]: lookup of a member by name; [KeyError] otherwise. *)
Definition Market_getitem (code : string) : Result Market :=
  match list_find (λ m, Market_name m = code) Market_members with
  | Some (_, m) => Ok m
  | None => Raise (KeyError code)
  end.

(** [Country(v)]: lookup of a member by value; [ValueError] otherwise. *)
Definition Country_call (v : Z) : Result Country :=
  match list_find (λ c, Country_value c = v) Country_members with
  | Some (_, c) => Ok c
  | None => Raise (ValueError "is not a valid Country")
  end.

(** Python's [//] on integers is floor division, as [Z.div]. *)
Definition get_country_by_market_code (code : string) : Result string :=
  match Market_getitem code with
  | Raise e => Raise e
  | Ok m0 =>
      let val := Market_value m0 in
      match Market_getitem code with
      | Raise e => Raise e
      | Ok m =>
          let country_val := Market_value m / 10 in
          match Country_call country_val with
          | Raise e => Raise e
          | Ok c => Ok (Country_name c)
          end
      end
  end.

End OverseaInfo.

(** ** Module [public_api]: data *)

(** JSON objects whose values are strings: request parameters, headers
    and the rows the server sends back. *)
Abbreviation Json := (gmap string string).

(** An element of [res.outputs]: a single object or an array of rows. *)
Inductive JVal : Type :=
  | JObj (o : Json)
  | JArr (rows : list Json).

Definition jlen (v : JVal) : nat :=
  match v with
  | JObj o => size o
  | JArr rows => length rows
  end.

(** The account tuple built by [set_account]. *)
Record Account : Type := mkAccount {
  account_code : string;
  product_code : string
}.

(** [APIRequestParameter]: a flag that a call site leaves out is [None]
    (the class default applies). *)
Record APIRequestParameter : Type := mkReq {
  url_path : string;
  tr_id : option string;
  params : Json;
  requires_authentication : option bool;
  requires_hash : option bool;
  extra_header : option Json
}.

(** [APIResponse]: the [is_ok()] predicate, the [tr_cont] response
    header, the continuation keys of the body, [outputs],
    [body['output']] and [body['HASH']] when the body has that key. *)
Record APIResponse : Type := mkRes {
  is_ok : bool;
  tr_cont : string;
  forward_key : string;
  next_key : string;
  outputs : list JVal;
  body_output : JVal;
  body_hash : option string
}.

Inductive Method : Type := GET | POST.

(** One request handed to the HTTP layer, with the [hashkey] header
    when [set_hash_key] has put one among its headers. *)
Record HttpCall : Type := mkCall {
  call_method : Method;
  call_req : APIRequestParameter;
  call_raise_flag : bool;
  call_hashkey : option string
}.

(** The client object together with the traffic it has caused so far. *)
Record World : Type := mkWorld {
  account : option Account;
  domain_is_real : bool;
  traffic : list HttpCall
}.

Definition sent (c : HttpCall) (w : World) : World :=
  mkWorld (account w) (domain_is_real w) (traffic w ++ [c]).

(** ** The monad of the client's methods *)

Definition M (A : Type) : Type := World → Result A * World.

Definition ret {A} (a : A) : M A := λ w, (Ok a, w).
Definition raise {A} (e : Exn) : M A := λ w, (Raise e, w).
Definition bind {A B} (m : M A) (k : A → M B) : M B :=
  λ w, match m w with
       | (Ok a, w') => k a w'
       | (Raise e, w') => (Raise e, w')
       end.
Definition lift {A} (r : Result A) : M A := λ w, (r, w).

(** Computations that may loop: [None] stands for fuel exhausted. *)
Definition D (A : Type) : Type := World → option (Result A * World).

Definition retD {A} (a : A) : D A := λ w, Some (Ok a, w).
Definition bindD {A B} (m : D A) (k : A → D B) : D B :=
  λ w, match m w with
       | Some (Ok a, w') => k a w'
       | Some (Raise e, w') => Some (Raise e, w')
       | None => None
       end.
Definition liftD {A} (m : M A) : D A := λ w, Some (m w).

Declare Scope api_scope.
Delimit Scope api_scope with api.
Notation "'do' x <- m ; k" := (bind m (λ x, k))
  (at level 10, x name, m at level 100, k at level 200,
   format "'[v' 'do'  x  <-  m ; '/' k ']'") : api_scope.
Notation "'doD' x <- m ; k" := (bindD m (λ x, k))
  (at level 10, x name, m at level 100, k at level 200,
   format "'[v' 'doD'  x  <-  m ; '/' k ']'") : api_scope.
Local Open Scope api_scope.

Definition msg_no_account : string :=
  "계좌가 설정되지 않았습니다. set_account를 통해 계좌 정보를 설정해주세요.".

Definition msg_no_market_order : string :=
  "[Error] 해외 주식 매매에서는 시장가를 지원하지 않습니다".

(** ** Python and pandas primitives *)

(** A dict display [{k1: v1, ..., kn: vn}]: a later key wins. *)
Definition dict (kvs : list (string * string)) : Json :=
  foldl (λ m kv, <[kv.1 := kv.2]> m) ∅ kvs.

(** [d[key]] on a JSON object. *)
Definition getitem (d : Json) (key : string) : Result string :=
  match d !! key with
  | Some v => Ok v
  | None => Raise (KeyError key)
  end.

(** [v[key]] where [v] came out of [res.outputs]. *)
Definition jval_getitem (v : JVal) (key : string) : Result string :=
  match v with
  | JObj o => getitem o key
  | JArr _ => Raise (TypeError "list indices must be integers or slices, not str")
  end.

(** [l[i]] on a Python list. *)
Definition list_getitem {A} (l : list A) (i : nat) : Result A :=
  match l !! i with
  | Some a => Ok a
  | None => Raise (IndexError "list index out of range")
  end.

(** A value that is an [int] or a [str], as the order amounts are. *)
Inductive PyVal : Type :=
  | PInt (z : Z)
  | PStr (s : string).

(** [pd.DataFrame(v)] before any reshaping: the rows of an array, the
    empty frame for the empty object; an object of scalars is refused
    by pandas. *)
Definition pd_DataFrame (v : JVal) : Result (list Json) :=
  match v with
  | JArr rows => Ok rows
  | JObj o =>
      if decide (o = ∅) then Ok []
      else
        Raise (ValueError "If using all scalar values, you must pass an index")
  end.

(** [pd.concat(frames)]: row-wise concatenation, refused on no frame. *)
Definition pd_concat {R} (frames : list (list R)) : Result (list R) :=
  match frames with
  | [] => Raise (ValueError "No objects to concatenate")
  | _ => Ok (concat frames)
  end.

(** [frame.drop_duplicates()]: rows are compared by their columns, the
    index taking no part, and of the rows that agree on every column
    the first one is kept, with its index. *)
Fixpoint drop_duplicates_from {R C} `{EqDecision C} (columns : R → C)
    (seen : list C) (frame : list R) : list R :=
  match frame with
  | [] => []
  | r :: frame' =>
      if decide (columns r ∈ seen)
      then drop_duplicates_from columns seen frame'
      else r :: drop_duplicates_from columns (columns r :: seen) frame'
  end.

Definition drop_duplicates {R C} `{EqDecision C} (columns : R → C)
    (frame : list R) : list R :=
  drop_duplicates_from columns [] frame.

(** ** Helpers of [request_utility] *)

(** Modelled from the spec: [none_to_empty_dict] of [request_utility],
    which is not among the sources; an absent dictionary is the empty
    one. *)
Definition none_to_empty_dict (d : option Json) : Json := default ∅ d.

(** Modelled from the spec: [merge_json] of [request_utility], which is
    not among the sources.  The cursor fields "are merged into the
    parameters of the next request": every call site lists its defaults
    first and the overriding dictionary last, so a later dictionary
    wins. *)
Definition merge_json (ds : list Json) : Json :=
  foldl (λ acc d, d ∪ acc) ∅ ds.

(** Modelled from the spec: [get_continuous_query_code] of
    [request_utility], which is not among the sources; "code "1" for
    domestic, code "3" for overseas". *)
Definition get_continuous_query_code (is_kr : bool) : string :=
  if is_kr then "1" else "3".

(** Modelled from the spec: the response-level continuation flag;
    ["F"] or the empty flag mean more data, anything else is the
    terminal marker. *)
Definition has_more (flag : string) : bool :=
  bool_decide (flag = "F") || bool_decide (flag = "").

(** Modelled from the spec: the cursor fields carried forward, under
    the names the query code selects. *)
Definition cursor_param (query_code : string) (res : APIResponse) : Json :=
  dict [("CTX_AREA_FK" +:+ query_code, forward_key res);
        ("CTX_AREA_NK" +:+ query_code, next_key res)].

(** The reshaping a [to_dataframe] helper applies to a non-empty frame
    (index, column selection, numeric conversion, renaming) is
    pandas' business; the helpers differ in the columns they name. *)
Inductive Schema : Type :=
  | KrBalanceFrame
  | OsBalanceFrame
  | KrOrderHistoryFrame
  | OsOrderHistoryFrame
  | KrOrdersFrame
  | OsOrdersFrame
  | OhlcvFrame.

(** ** Module [public_api]: the [Api] class *)

Section Api.

(** A row of a reshaped frame, and what it holds in its columns. *)
Context {DRow : Type}.
Context {DCols : Type} `{EqDecision DCols}.

(** The HTTP layer ([send_get_request] and [send_post_request] of
    [request_utility], with the URL and the headers, token included,
    that [Api._parse_headers] prepares for them): the answer, or the
    exception, the server side gives to a request after the requests
    made so far. *)
Variable transport : list HttpCall → HttpCall → Result APIResponse.

(** pandas' reshaping of a non-empty frame, per helper. *)
Variable reshape : Schema → list Json → Result (list DRow).

(** The columns of a row, index aside: what [drop_duplicates]
    compares. *)
Variable row_columns : DRow → DCols.

(** Cells of a reshaped frame: [frame.index] and [frame[column]]. *)
Variable row_index : DRow → PyVal.
Variable row_cell : string → DRow → option PyVal.

(** Python built-ins: [int(s)], [float(s)], [f"{price:.2f}"],
    [str(price)], [s.upper()]. *)
Variable py_int : string → Result Z.
Variable py_float : string → Result spec_float.
Variable format_2f : spec_float → string.
Variable str_float : spec_float → string.
Variable str_upper : string → string.

(** [utility] and [market_code_map], which are not among the
    sources. *)
Variable get_currency_code_from_market_code : string → Result string.
Variable get_order_tr_id_from_market_code :
  string → bool → bool → Result string.
Variable to_4 : string → Result string.
Variable codes_4 : list string.

(** [datetime.datetime.now()], formatted with ["%Y%m%d"], for
    yesterday and for today. *)
Variable yesterday today : string.

(** The value [send_continuous_query] gives [is_kr] when a call site
    leaves it out. *)
Variable default_is_kr : bool.

(** *** Attribute access and the HTTP methods *)

(** [self.account.<name>]: [self.account] is [None] until
    [set_account] has stored an account. *)
Definition self_account (field : Account → string) (name : string)
    : M string :=
  λ w, match account w with
       | Some a => (Ok (field a), w)
       | None =>
           (Raise (AttributeError
              ("'NoneType' object has no attribute '" +:+ name +:+ "'")), w)
       end.

(** [self.domain.is_real()]. *)
Definition self_domain_is_real : M bool :=
  λ w, (Ok (domain_is_real w), w).

Definition _send_get_request (req : APIRequestParameter)
    (raise_flag : bool) : M APIResponse :=
  λ w, let c := mkCall GET req raise_flag None in
       (transport (traffic w) c, sent c w).

(** [send_post_request(url, headers, req.params, raise_flag)] with the
    headers as they stand at that point. *)
Definition post (req : APIRequestParameter) (hashkey : option string)
    (raise_flag : bool) : M APIResponse :=
  λ w, let c := mkCall POST req raise_flag hashkey in
       (transport (traffic w) c, sent c w).

(** [get_hash_key] goes through [_send_post_request] with a request
    that requires no hash, which is posted as it is. *)
Definition get_hash_key (params : Json) : M string :=
  let url_path := "/uapi/hashkey" in
  let req := mkReq url_path None params (Some false) (Some false) None in
  do response <- post req None true;
  lift (match body_hash response with
        | Some hash => Ok hash
        | None => Raise (KeyError "HASH")
        end).

(** [set_hash_key(headers, req.params)] puts the hash key among the
    headers before the request is posted.  Every POST request of the
    class states [requires_hash]. *)
Definition _send_post_request (req : APIRequestParameter)
    (raise_flag : bool) : M APIResponse :=
  if default false (requires_hash req) then
    do hash_key <- get_hash_key (params req);
    post req (Some hash_key) raise_flag
  else post req None raise_flag.

(** *** The continuation pager *)

(** Modelled from the spec: [send_continuous_query] of
    [request_utility], which is not among the sources.  The request
    function is called with an empty cursor first; after each
    response whose flag says more data, the cursor fields of that
    response are carried into the next call; the frames of all pages
    are concatenated and duplicate rows are removed.  The spec gives
    the loop no bound, so the embedding takes fuel and answers
    [None] when it runs out. *)
Fixpoint continuous_query_loop (fuel : nat)
    (request_function : option Json → option Json → M APIResponse)
    (to_dataframe : APIResponse → Result (list DRow))
    (query_code : string)
    (extra_param : option Json) (outputs : list (list DRow))
    : D (list DRow) :=
  match fuel with
  | O => λ _, None
  | S fuel' =>
      doD res <- liftD (request_function None extra_param);
      doD output <- liftD (lift (to_dataframe res));
      let outputs := outputs ++ [output] in
      if has_more (tr_cont res)
      then continuous_query_loop fuel' request_function to_dataframe
             query_code (Some (cursor_param query_code res)) outputs
      else retD (drop_duplicates row_columns (concat outputs))
  end.

Definition send_continuous_query (fuel : nat)
    (request_function : option Json → option Json → M APIResponse)
    (to_dataframe : APIResponse → Result (list DRow))
    (is_kr : option bool) : D (list DRow) :=
  let query_code :=
    get_continuous_query_code (default default_is_kr is_kr) in
  continuous_query_loop fuel request_function to_dataframe
    query_code None [].

(** The shape shared by the [to_dataframe] helpers:
    [tdf = pd.DataFrame(v); if tdf.empty: return tdf; ...]. *)
Definition to_dataframe_of (schema : Schema) (v : Result JVal)
    : Result (list DRow) :=
  match v with
  | Raise e => Raise e
  | Ok v =>
      match pd_DataFrame v with
      | Raise e => Raise e
      | Ok [] => Ok []
      | Ok tdf => reshape schema tdf
      end
  end.

(** *** Quotations *)

Definition _get_kr_history (ticker time_unit : string) : M APIResponse :=
  let time_unit := str_upper time_unit in
  let time_unit :=
    if bool_decide (time_unit ∈ ["DAYS"; "DAY"]) then "D"
    else if bool_decide (time_unit ∈ ["WEEKS"; "WEEK"]) then "W"
    else if bool_decide (time_unit ∈ ["MONTHS"; "MONTH"]) then "M"
    else time_unit in
  let url_path := "/uapi/domestic-stock/v1/quotations/inquire-daily-price" in
  let tr_id := "FHKST01010400" in
  let params := dict [
    ("FID_COND_MRKT_DIV_CODE", "J");
    ("FID_INPUT_ISCD", ticker);
    ("FID_PERIOD_DIV_CODE", time_unit);
    ("FID_ORG_ADJ_PRC", "0000000001")] in
  let req := mkReq url_path (Some tr_id) params None None None in
  _send_get_request req false.

Definition get_kr_ohlcv (ticker time_unit : string) : M (list DRow) :=
  do res <- _get_kr_history ticker time_unit;
  if negb (is_ok res) then ret []
  else if bool_decide (length (outputs res) = 0%nat) then ret []
  else
    do out0 <- lift (list_getitem (outputs res) 0);
    if bool_decide (jlen out0 = 0%nat) then ret []
    else
      do data <- lift (pd_DataFrame out0);
      lift (reshape OhlcvFrame data).

(** *** Balances *)

Definition get_kr_buyable_cash : M Z :=
  let url_path := "/uapi/domestic-stock/v1/trading/inquire-daily-ccld" in
  let tr_id := "TTTC8908R" in
  do _ <- (λ w, match account w with
                | None => (Raise (RuntimeError msg_no_account), w)
                | Some _ => (Ok (), w)
                end);
  let stock_code := "" in
  let qry_price := 0 in
  do cano <- self_account account_code "account_code";
  do prdt <- self_account product_code "product_code";
  let params := dict [
    ("CANO", cano);
    ("ACNT_PRDT_CD", prdt);
    ("PDNO", stock_code);
    ("ORD_UNPR", pretty qry_price);
    ("ORD_DVSN", "02");
    ("CMA_EVLU_AMT_ICLD_YN", "Y");
    ("OVRS_ICLD_YN", "N")] in
  let req := mkReq url_path (Some tr_id) params None None None in
  do res <- _send_get_request req true;
  do output <- lift (list_getitem (outputs res) 0);
  do cash <- lift (jval_getitem output "ord_psbl_cash");
  lift (py_int cash).

Definition _get_total_balance (is_kr : bool)
    (extra_header extra_param : option Json) : M APIResponse :=
  let url_path :=
    if is_kr then "/uapi/domestic-stock/v1/trading/inquire-balance"
    else "/uapi/overseas-stock/v1/trading/inquire-balance" in
  let tr_id := if is_kr then "TTTC8434R" else "JTTT3012R" in
  let extra_header := none_to_empty_dict extra_header in
  let extra_param := none_to_empty_dict extra_param in
  let extra_header := merge_json [dict [("tr_cont", "")]; extra_header] in
  let query_code := get_continuous_query_code is_kr in
  do cano <- self_account account_code "account_code";
  do prdt <- self_account product_code "product_code";
  let params := dict [
    ("CANO", cano);
    ("ACNT_PRDT_CD", prdt);
    ("CTX_AREA_FK" +:+ query_code, "");
    ("CTX_AREA_NK" +:+ query_code, "")] in
  let params := merge_json [params; extra_param] in
  let req :=
    mkReq url_path (Some tr_id) params None None (Some extra_header) in
  _send_get_request req true.

(** [time.sleep(DELAY)] passes time and nothing else. *)
Definition _get_os_total_balance (market_code : string)
    (extra_header extra_param : option Json) : M APIResponse :=
  do currency_code <- lift (get_currency_code_from_market_code market_code);
  let extra_param := merge_json [
    dict [("OVRS_EXCG_CD", market_code); ("TR_CRCY_CD", currency_code)];
    none_to_empty_dict extra_param] in
  let is_kr := false in
  _get_total_balance is_kr extra_header (Some extra_param).

Definition _get_kr_total_balance
    (extra_header extra_param : option Json) : M APIResponse :=
  let extra_param := merge_json [
    dict [("AFHR_FLPR_YN", "N");
          ("FNCG_AMT_AUTO_RDPT_YN", "N");
          ("FUND_STTL_ICLD_YN", "N");
          ("INQR_DVSN", "01");
          ("OFL_YN", "N");
          ("PRCS_DVSN", "01");
          ("UNPR_DVSN", "01")];
    none_to_empty_dict extra_param] in
  let is_kr := true in
  _get_total_balance is_kr extra_header (Some extra_param).

Definition get_kr_stock_balance (fuel : nat) : D (list DRow) :=
  let to_dataframe res :=
    to_dataframe_of KrBalanceFrame (list_getitem (outputs res) 0) in
  let request_function eh ep := _get_kr_total_balance eh ep in
  send_continuous_query fuel request_function to_dataframe None.

Definition get_kr_deposit : M Z :=
  do res <- _get_kr_total_balance None None;
  do output2 <- lift (list_getitem (outputs res) 1);
  match output2 with
  | JObj _ => raise (KeyError "0")
  | JArr rows =>
      do row <- lift (list_getitem rows 0);
      do amt <- lift (getitem row "prvs_rcdl_excc_amt");
      lift (py_int amt)
  end.

Definition _get_os_stock_balance (fuel : nat) (market_code : string)
    : D (list DRow) :=
  let to_dataframe res :=
    to_dataframe_of OsBalanceFrame (list_getitem (outputs res) 0) in
  let request_function eh ep := _get_os_total_balance market_code eh ep in
  send_continuous_query fuel request_function to_dataframe (Some false).

(** A list comprehension whose body may loop or raise. *)
Fixpoint comprehension {A B} (f : A → D B) (l : list A) : D (list B) :=
  match l with
  | [] => retD []
  | a :: l' =>
      doD b <- f a;
      doD bs <- comprehension f l';
      retD (b :: bs)
  end.


Definition _get_inquire_psamount (is_kr : bool)
    (extra_header extra_param : option Json) : M APIResponse :=
  let url_path :=
    if is_kr then "/uapi/domestic-stock/v1/trading/inquire-balance"
    else "/uapi/overseas-stock/v1/trading/inquire-psamount" in
  let tr_id := if is_kr then "TTTC8434R" else "TTTS3007R" in
  let extra_param :=
    if is_kr then extra_param
    else Some (dict [("OVRS_EXCG_CD", "NASD");
                     ("OVRS_ORD_UNPR", "0");
                     ("ITEM_CD", "NDAQ")]) in
  let extra_header := none_to_empty_dict extra_header in
  let extra_param := none_to_empty_dict extra_param in
  let extra_header := merge_json [dict [("tr_cont", "")]; extra_header] in
  let query_code := get_continuous_query_code is_kr in
  do cano <- self_account account_code "account_code";
  do prdt <- self_account product_code "product_code";
  let params := dict [
    ("CANO", cano);
    ("ACNT_PRDT_CD", prdt);
    ("CTX_AREA_FK" +:+ query_code, "");
    ("CTX_AREA_NK" +:+ query_code, "")] in
  let params := merge_json [params; extra_param] in
  let req :=
    mkReq url_path (Some tr_id) params None None (Some extra_header) in
  _send_get_request req true.

(** Floats are binary64: [x * y], [x > 0] and the truth value of
    [x] (anything but zero). *)
Definition float_mul (x y : spec_float) : spec_float := SFmul 53 1024 x y.

Definition float_truthy (x : spec_float) : bool :=
  negb (SFeqb x (S754_zero false)).

Definition get_os_deposit : M (spec_float + Z) :=
  do real <- self_domain_is_real;
  if real then
    let is_kr := false in
    do res <- _get_inquire_psamount is_kr None None;
    let output := body_output res in
    do s1 <- lift (jval_getitem output "ovrs_ord_psbl_amt");
    do ovrs_ord_psbl_amt <- lift (py_float s1);
    do s2 <- lift (jval_getitem output "frcr_ord_psbl_amt1");
    do frcr_ord_psbl_amt1 <- lift (py_float s2);
    do s3 <- lift (jval_getitem output "exrt");
    do exrt <- lift (py_float s3);
    if SFltb (S754_zero false) frcr_ord_psbl_amt1
    then ret (inl (float_mul frcr_ord_psbl_amt1 exrt))
    else ret (inl (float_mul ovrs_ord_psbl_amt exrt))
  else
    do res <- _get_kr_total_balance None None;
    do output2 <- lift (list_getitem (outputs res) 1);
    match output2 with
    | JObj _ => raise (KeyError "0")
    | JArr rows =>
        do row <- lift (list_getitem rows 0);
        do amt <- lift (getitem row "prvs_rcdl_excc_amt");
        do n <- lift (py_int amt);
        ret (inr n)
    end.

Definition get_is_integrate : M (option bool) :=
  do real <- self_domain_is_real;
  if real then
    let is_kr := false in
    do res <- _get_inquire_psamount is_kr None None;
    let output := body_output res in
    do s1 <- lift (jval_getitem output "ovrs_ord_psbl_amt");
    do ovrs_ord_psbl_amt <- lift (py_float s1);
    do s2 <- lift (jval_getitem output "frcr_ord_psbl_amt1");
    do frcr_ord_psbl_amt1 <- lift (py_float s2);
    do kr_deposit <- get_kr_deposit;
    if float_truthy frcr_ord_psbl_amt1 then ret (Some true)
    else if negb (float_truthy ovrs_ord_psbl_amt)
              && bool_decide (kr_deposit = 0)
    then ret None
    else ret (Some false)
  else ret None.

(** *** Order history *)

Definition _get_order_history (is_kr : bool) (sell_or_buy : string)
    (extra_header extra_param : option Json) : M APIResponse :=
  do real <- self_domain_is_real;
  let url_path :=
    if is_kr then "/uapi/domestic-stock/v1/trading/inquire-daily-ccld"
    else "/uapi/overseas-stock/v1/trading/inquire-ccnl" in
  let tr_id :=
    if is_kr then (if negb real then "VTTC8001R" else "TTTC8001R")
    else (if negb real then "VTTS3035R" else "TTTS3035R") in
  let OVRS_EXCG_CD := if negb real then "" else "NASD" in
  let PDNO :=
    if is_kr then "" else (if negb real then "" else "%") in
  let ORD_STRT_DT := yesterday in
  let ORD_END_DT := today in
  let extra_header := none_to_empty_dict extra_header in
  let extra_param := none_to_empty_dict extra_param in
  let extra_header := merge_json [dict [("tr_cont", "")]; extra_header] in
  let query_code := get_continuous_query_code is_kr in
  do cano <- self_account account_code "account_code";
  do prdt <- self_account product_code "product_code";
  let params :=
    if is_kr then dict [
      ("CANO", cano);
      ("ACNT_PRDT_CD", prdt);
      ("INQR_STRT_DT", ORD_STRT_DT);
      ("INQR_END_DT", ORD_END_DT);
      ("SLL_BUY_DVSN_CD", sell_or_buy);
      ("INQR_DVSN", "AS");
      ("PDNO", PDNO);
      ("CCLD_DVSN", "00");
      ("ORD_GNO_BRNO", "");
      ("ODNO", "");
      ("INQR_DVSN_3", "00");
      ("INQR_DVSN_1", "");
      ("CTX_AREA_FK" +:+ query_code, "");
      ("CTX_AREA_NK" +:+ query_code, "")]
    else dict [
      ("CANO", cano);
      ("ACNT_PRDT_CD", prdt);
      ("PDNO", PDNO);
      ("ORD_STRT_DT", ORD_STRT_DT);
      ("ORD_END_DT", ORD_END_DT);
      ("SLL_BUY_DVSN", sell_or_buy);
      ("CCLD_NCCS_DVSN", "00");
      ("OVRS_EXCG_CD", OVRS_EXCG_CD);
      ("SORT_SQN", "AS");
      ("ORD_DT", "");
      ("ORD_GNO_BRNO", "");
      ("ODNO", "");
      ("CTX_AREA_FK" +:+ query_code, "");
      ("CTX_AREA_NK" +:+ query_code, "")] in
  let params := merge_json [params; extra_param] in
  let req :=
    mkReq url_path (Some tr_id) params None None (Some extra_header) in
  _send_get_request req true.

Definition _get_os_order_history (fuel : nat) : D (list DRow) :=
  let to_dataframe res :=
    to_dataframe_of OsOrderHistoryFrame (Ok (body_output res)) in
  let request_function eh ep := _get_order_history false "00" eh ep in
  send_continuous_query fuel request_function to_dataframe (Some false).

Definition _get_kr_order_history (fuel : nat) : D (list DRow) :=
  let to_dataframe res :=
    to_dataframe_of KrOrderHistoryFrame (list_getitem (outputs res) 0) in
  let request_function eh ep := _get_order_history true "00" eh ep in
  send_continuous_query fuel request_function to_dataframe (Some true).

Definition get_os_order_history (fuel : nat) : D (list DRow) :=
  doD data <- _get_os_order_history fuel;
  let datas := [data] in
  doD all <- liftD (lift (pd_concat datas));
  retD (drop_duplicates row_columns all).

Definition get_kr_order_history (fuel : nat) : D (list DRow) :=
  doD data <- _get_kr_order_history fuel;
  let datas := [data] in
  doD all <- liftD (lift (pd_concat datas));
  retD (drop_duplicates row_columns all).

(** *** Open orders *)

Definition _get_kr_orders_once
    (extra_header extra_param : option Json) : M APIResponse :=
  let url_path := "/uapi/domestic-stock/v1/trading/inquire-psbl-rvsecncl" in
  let tr_id := "TTTC8036R" in
  let extra_header := none_to_empty_dict extra_header in
  let extra_param := none_to_empty_dict extra_param in
  let extra_header := merge_json [dict [("tr_cont", "")]; extra_header] in
  let query_code := get_continuous_query_code true in
  do cano <- self_account account_code "account_code";
  do prdt <- self_account product_code "product_code";
  let params := dict [
    ("CANO", cano);
    ("ACNT_PRDT_CD", prdt);
    ("CTX_AREA_FK" +:+ query_code, "");
    ("CTX_AREA_NK" +:+ query_code, "");
    ("INQR_DVSN_1", "0");
    ("INQR_DVSN_2", "0")] in
  let params := merge_json [params; extra_param] in
  let req :=
    mkReq url_path (Some tr_id) params None None (Some extra_header) in
  do res <- _send_get_request req true;
  ret res.

Definition _get_os_orders_once (markert_code : string)
    (extra_header extra_param : option Json) : M APIResponse :=
  let url_path := "/uapi/overseas-stock/v1/trading/inquire-nccs" in
  do real <- self_domain_is_real;
  let tr_id := if real then "TTTS3018R" else "VTTT3018R" in
  let extra_header := none_to_empty_dict extra_header in
  let extra_param := none_to_empty_dict extra_param in
  do markert_code <- lift (to_4 markert_code);
  let extra_header := merge_json [dict [("tr_cont", "")]; extra_header] in
  let query_code := get_continuous_query_code false in
  do cano <- self_account account_code "account_code";
  do prdt <- self_account product_code "product_code";
  let params := dict [
    ("CANO", cano);
    ("ACNT_PRDT_CD", prdt);
    ("CTX_AREA_FK" +:+ query_code, "");
    ("CTX_AREA_NK" +:+ query_code, "");
    ("OVRS_EXCG_CD", markert_code);
    ("SORT_SQN", "DS")] in
  let params := merge_json [params; extra_param] in
  let req :=
    mkReq url_path (Some tr_id) params None None (Some extra_header) in
  do res <- _send_get_request req true;
  ret res.

Definition get_kr_orders (fuel : nat) : D (list DRow) :=
  let to_dataframe res :=
    to_dataframe_of KrOrdersFrame (list_getitem (outputs res) 0) in
  send_continuous_query fuel _get_kr_orders_once to_dataframe None.

(** The body of [get_os_orders] defines two local helpers and ends:
    the method returns [None]. *)
Definition get_os_orders : M (option (list DRow)) := ret None.

(** The [to_dataframe] helper of [get_os_orders_by_flag].  Its
    [if sell_or_buy:] reads the local function of that name, which
    hides the parameter and is true, and no cell of the column equals
    that function: of a frame that was reshaped without an error, the
    selection [data[data[sell_or_buy_column] == sell_or_buy]] keeps no
    row. *)
Definition to_dataframe_os_orders (res : APIResponse)
    : Result (list DRow) :=
  match to_dataframe_of OsOrdersFrame (list_getitem (outputs res) 0) with
  | Raise e => Raise e
  | Ok data => Ok (filter (λ _, False) data)
  end.

Definition get_os_orders_by_flag (fuel : nat) : D (list DRow) :=
  let to_dataframe res := to_dataframe_os_orders res in
  let request_function_factory code :=
    λ eh ep, _get_os_orders_once code eh ep in
  doD outputs <-
    comprehension
      (λ code, send_continuous_query fuel (request_function_factory code)
                 to_dataframe None)
      (filter (λ code, code ∉ ["AMEX"; "NYSE"]) codes_4);
  liftD (lift (pd_concat outputs)).

(** *** Order entry *)

Definition _send_kr_order (ticker : string) (amount price : Z)
    (buy : bool) : M JVal :=
  let order_type := if bool_decide (price ≤ 0) then "01" else "00" in
  let price := if bool_decide (price ≤ 0) then 0 else price in
  let url_path := "/uapi/domestic-stock/v1/trading/order-cash" in
  let tr_id := if buy then "TTTC0802U" else "TTTC0801U" in
  do cano <- self_account account_code "account_code";
  do prdt <- self_account product_code "product_code";
  let params := dict [
    ("CANO", cano);
    ("ACNT_PRDT_CD", prdt);
    ("PDNO", ticker);
    ("ORD_DVSN", order_type);
    ("ORD_QTY", pretty amount);
    ("ORD_UNPR", pretty price);
    ("CTAC_TLNO", "")] in
  let req :=
    mkReq url_path (Some tr_id) params (Some true) (Some true) None in
  do response <- _send_post_request req true;
  lift (list_getitem (outputs response) 0).



(** [price <= 0] on a float: false on a NaN. *)
Definition price_le_0 (price : spec_float) : bool :=
  SFleb price (S754_zero false).

Definition price_gt_0 (price : spec_float) : bool :=
  SFltb (S754_zero false) price.

Definition _send_os_order (ticker market_code : string)
    (order_amount : Z) (price : spec_float) (buy : bool) : M JVal :=
  let order_type := "00" in
  let price_as_str := format_2f price in
  do market_code <- lift (to_4 market_code);
  if price_le_0 price then raise (RuntimeError msg_no_market_order)
  else
    let url_path := "/uapi/overseas-stock/v1/trading/order" in
    do real <- self_domain_is_real;
    do tr_id <- lift (get_order_tr_id_from_market_code market_code buy real);
    do cano <- self_account account_code "account_code";
    do prdt <- self_account product_code "product_code";
    let params := dict [
      ("CANO", cano);
      ("ACNT_PRDT_CD", prdt);
      ("PDNO", ticker);
      ("OVRS_EXCG_CD", market_code);
      ("ORD_DVSN", order_type);
      ("ORD_QTY", pretty order_amount);
      ("OVRS_ORD_UNPR", price_as_str);
      ("ORD_SVR_DVSN_CD", "0")] in
    let req :=
      mkReq url_path (Some tr_id) params (Some true) (Some true) None in
    do response <- _send_post_request req true;
    lift (list_getitem (outputs response) 0).

Definition buy_os_stock (market_code ticker : string) (amount : Z)
    (price : spec_float) : M JVal :=
  _send_os_order ticker market_code amount price true.

Definition sell_os_stock (market_code ticker : string) (amount : Z)
    (price : spec_float) : M JVal :=
  _send_os_order ticker market_code amount price false.

(** *** Revision and cancellation *)

(** [int(v)] and [str(v)] on an amount. *)
Definition int_of (v : PyVal) : Result Z :=
  match v with
  | PInt z => Ok z
  | PStr s => py_int s
  end.

Definition str_of (v : PyVal) : string :=
  match v with
  | PInt z => pretty z
  | PStr s => s
  end.

(** The [tr] table of [_revise_cancel_os_orders]. *)
Definition revise_cancel_tr (real : bool) : Json :=
  if real then dict [
    ("USA", "TTTT1004U"); ("HK", "TTTS1003U"); ("JP", "TTTS0309U");
    ("CN_SHA", "TTTS0302U"); ("CN_SZX", "TTTS0306U"); ("VN", "TTTS0312U")]
  else dict [
    ("USA", "VTTT1004U"); ("HK", "VTTS1003U"); ("JP", "VTTS0309U");
    ("CN_SHA", "VTTS0302U"); ("CN_SZX", "VTTS0306U"); ("VN", "VTTS0312U")].

(** The price is a float when revising and the integer [0] when
    cancelling. *)
Definition _revise_cancel_os_orders (order_number : PyVal)
    (ticker market_code : PyVal) (is_cancel : bool)
    (price : spec_float) (amount : option PyVal) : M APIResponse :=
  let url_path := "/uapi/overseas-stock/v1/trading/order-rvsecncl" in
  do real <- self_domain_is_real;
  do country <-
    lift (OverseaInfo.get_country_by_market_code (str_of market_code));
  do tr_id <- lift (getitem (revise_cancel_tr real) country);
  let cancel_dv := if is_cancel then "02" else "01" in
  let price_str := if is_cancel then pretty 0 else str_float price in
  do amount <-
    lift (match amount with
          | None => Ok (PInt 1)
          | Some a =>
              match int_of a with
              | Raise e => Raise e
              | Ok n => Ok (if bool_decide (n ≤ 0) then PInt 1 else a)
              end
          end);
  do cano <- self_account account_code "account_code";
  do prdt <- self_account product_code "product_code";
  let params := dict [
    ("CANO", cano);
    ("ACNT_PRDT_CD", prdt);
    ("OVRS_EXCG_CD", str_of market_code);
    ("PDNO", str_of ticker);
    ("ORGN_ODNO", str_of order_number);
    ("RVSE_CNCL_DVSN_CD", cancel_dv);
    ("ORD_QTY", str_of amount);
    ("OVRS_ORD_UNPR", price_str)] in
  let req :=
    mkReq url_path (Some tr_id) params (Some true) (Some true) None in
  do res <- _send_post_request req true;
  ret res.

Definition cancel_os_order (order_number ticker market_code : PyVal)
    (amount : option PyVal) : M APIResponse :=
  _revise_cancel_os_orders order_number ticker market_code true
    (S754_zero false) amount.

(** [data.index] and [data[column]] on what a query returned. *)
Definition frame_index (data : option (list DRow)) : Result (list PyVal) :=
  match data with
  | None =>
      Raise (AttributeError "'NoneType' object has no attribute 'index'")
  | Some rows => Ok (row_index <$> rows)
  end.

(** A frame without rows, as these methods get it from a query whose
    pages were all empty, is [pd.DataFrame] of no row and has no
    column to read. *)
Definition frame_column (data : option (list DRow)) (column : string)
    : Result (list PyVal) :=
  match data with
  | None => Raise (TypeError "'NoneType' object is not subscriptable")
  | Some [] => Raise (KeyError column)
  | Some rows =>
      match mapM (row_cell column) rows with
      | Some cells => Ok cells
      | None => Raise (KeyError column)
      end
  end.

(** The [for] loop of [cancel_all_os_orders] over the zipped
    columns; [time.sleep(delay)] passes time and nothing else. *)
Fixpoint cancel_each (orders tickers amounts markets : list PyVal)
    (rets : list APIResponse) : M (list APIResponse) :=
  match orders, tickers, amounts, markets with
  | order :: orders', ticker :: tickers', amount :: amounts',
    market_code :: markets' =>
      do r <- cancel_os_order order ticker market_code (Some amount);
      cancel_each orders' tickers' amounts' markets' (rets ++ [r])
  | _, _, _, _ => ret rets
  end.

Definition cancel_all_os_orders : M (list APIResponse) :=
  do data <- get_os_orders;
  do orders <- lift (frame_index data);
  do tickers <- lift (frame_column data "pdno");
  do markets <- lift (frame_column data "ovrs_excg_cd");
  do amounts <- lift (frame_column data "nccs_qty");
  let rets := [] in
  cancel_each orders tickers amounts markets rets.

Definition revise_os_order (order_number ticker market_code : PyVal)
    (price : spec_float) (amount : option PyVal) : M APIResponse :=
  _revise_cancel_os_orders order_number ticker market_code false
    price amount.

Definition _revise_cancel_kr_orders (order_number : PyVal)
    (is_cancel : bool) (price : Z) (amount : option PyVal)
    (order_branch : string) : M APIResponse :=
  let url_path := "/uapi/domestic-stock/v1/trading/order-rvsecncl" in
  let tr_id := "TTTC0803U" in
  let order_dv := "00" in
  let cancel_dv := if is_cancel then "02" else "01" in
  do amount_all <-
    lift (match amount with
          | None => Ok (PInt 1, "Y")
          | Some a =>
              match int_of a with
              | Raise e => Raise e
              | Ok n =>
                  Ok (if bool_decide (n ≤ 0) then (PInt 1, "Y")
                      else (a, "N"))
              end
          end);
  let amount := amount_all.1 in
  let apply_all := amount_all.2 in
  do cano <- self_account account_code "account_code";
  do prdt <- self_account product_code "product_code";
  let params := dict [
    ("CANO", cano);
    ("ACNT_PRDT_CD", prdt);
    ("KRX_FWDG_ORD_ORGNO", order_branch);
    ("ORGN_ODNO", str_of order_number);
    ("ORD_DVSN", order_dv);
    ("RVSE_CNCL_DVSN_CD", cancel_dv);
    ("ORD_QTY", str_of amount);
    ("ORD_UNPR", pretty price);
    ("QTY_ALL_ORD_YN", apply_all)] in
  let req :=
    mkReq url_path (Some tr_id) params (Some true) (Some true) None in
  do res <- _send_post_request req true;
  ret res.

Definition cancel_kr_order (order_number : PyVal)
    (amount : option PyVal) (order_branch : string) : M APIResponse :=
  _revise_cancel_kr_orders order_number true 1 amount order_branch.

Definition revise_kr_order (order_number : PyVal) (price : Z)
    (amount : option PyVal) (order_branch : string) : M APIResponse :=
  _revise_cancel_kr_orders order_number false price amount order_branch.

(** *** The paged queries of the class, one by one *)

Inductive PagedQuery : Type :=
  | KrStockBalance
  | OsStockBalance (market_code : string)
  | KrOrderHistory
  | OsOrderHistory
  | KrOrders
  | OsOrders (code : string).

(** The request function a query hands to the pager. *)
Definition request_function_of (q : PagedQuery)
    : option Json → option Json → M APIResponse :=
  match q with
  | KrStockBalance => λ eh ep, _get_kr_total_balance eh ep
  | OsStockBalance market_code =>
      λ eh ep, _get_os_total_balance market_code eh ep
  | KrOrderHistory => λ eh ep, _get_order_history true "00" eh ep
  | OsOrderHistory => λ eh ep, _get_order_history false "00" eh ep
  | KrOrders => _get_kr_orders_once
  | OsOrders code => λ eh ep, _get_os_orders_once code eh ep
  end.

(** Its [to_dataframe] helper. *)
Definition to_dataframe_for (q : PagedQuery)
    : APIResponse → Result (list DRow) :=
  match q with
  | KrStockBalance => λ res,
      to_dataframe_of KrBalanceFrame (list_getitem (outputs res) 0)
  | OsStockBalance _ => λ res,
      to_dataframe_of OsBalanceFrame (list_getitem (outputs res) 0)
  | KrOrderHistory => λ res,
      to_dataframe_of KrOrderHistoryFrame (list_getitem (outputs res) 0)
  | OsOrderHistory => λ res,
      to_dataframe_of OsOrderHistoryFrame (Ok (body_output res))
  | KrOrders => λ res,
      to_dataframe_of KrOrdersFrame (list_getitem (outputs res) 0)
  | OsOrders _ => to_dataframe_os_orders
  end.

(** The [is_kr] argument its call of the pager passes, if any. *)
Definition is_kr_argument (q : PagedQuery) : option bool :=
  match q with
  | KrStockBalance => None
  | OsStockBalance _ => Some false
  | KrOrderHistory => Some true
  | OsOrderHistory => Some false
  | KrOrders => None
  | OsOrders _ => None
  end.

(** The endpoint family its request builder names the cursor fields
    for. *)
Definition targets_kr (q : PagedQuery) : bool :=
  match q with
  | KrStockBalance | KrOrderHistory | KrOrders => true
  | OsStockBalance _ | OsOrderHistory | OsOrders _ => false
  end.

Definition paged_query (q : PagedQuery) (fuel : nat) : D (list DRow) :=
  match q with
  | KrStockBalance => get_kr_stock_balance fuel
  | OsStockBalance market_code => _get_os_stock_balance fuel market_code
  | KrOrderHistory => _get_kr_order_history fuel
  | OsOrderHistory => _get_os_order_history fuel
  | KrOrders => get_kr_orders fuel
  | OsOrders code =>
      send_continuous_query fuel
        (λ eh ep, _get_os_orders_once code eh ep)
        (λ res, to_dataframe_os_orders res)
        None
  end.

(** The code the pager names the carried cursor with, and the code
    the request builder names its own cursor fields with. *)
Definition pager_code (q : PagedQuery) : string :=
  get_continuous_query_code (default default_is_kr (is_kr_argument q)).

Definition builder_code (q : PagedQuery) : string :=
  get_continuous_query_code (targets_kr q).

(** What a request function needs besides the network: an account,
    and for the overseas builders a known market code. *)
Definition ready (q : PagedQuery) (w : World) : Prop :=
  is_Some (account w) ∧
  match q with
  | OsStockBalance market_code =>
      ∃ cc, get_currency_code_from_market_code market_code = Ok cc
  | OsOrders code => ∃ m, to_4 code = Ok m
  | _ => True
  end.

(** *** Servers that play a script *)

(** Once [base] requests have been made, the answer to the [k]-th
    request after them is [script k], whatever the request says. *)
Definition plays (base : nat) (script : nat → Result APIResponse)
    : Prop :=
  ∀ log c, (base ≤ length log)%nat →
           transport log c = script (length log - base)%nat.

(** A finite page sequence as a script; past its end the server has
    nothing to say. *)
Definition script_of_pages (pages : list APIResponse)
    : nat → Result APIResponse :=
  λ k, match pages !! k with
       | Some page => Ok page
       | None => Raise (TransportError "no page left")
       end.

Definition cursor_names (query_code : string) : list string :=
  ["CTX_AREA_FK" +:+ query_code; "CTX_AREA_NK" +:+ query_code].

(** *** The account-scoped operations of the class *)






(** A logged call carries a cursor dictionary: it is a GET, every
    entry of the dictionary is among its parameters as it stands,
    and a cursor field of the builder that the dictionary does not
    name is the empty string. *)
Definition carries (q : PagedQuery) (extra_param : option Json)
    (c : HttpCall) : Prop :=
  call_method c = GET ∧
  (∀ key v, none_to_empty_dict extra_param !! key = Some v →
            params (call_req c) !! key = Some v) ∧
  (∀ key, key ∈ cursor_names (builder_code q) →
          none_to_empty_dict extra_param !! key = None →
          params (call_req c) !! key = Some "").

(** The cursor dictionaries a run over [pages] hands to the request
    function, call after call, starting from [extra_param]. *)
Definition cursors (query_code : string) (extra_param : option Json)
    (pages : list APIResponse) : list (option Json) :=
  extra_param :: ((λ page, Some (cursor_param query_code page)) <$> pages).

Definition after (w : World) (calls : list HttpCall) : World :=
  mkWorld (account w) (domain_is_real w) (traffic w ++ calls).

(** *** Posting under a hash key *)

(** The request [get_hash_key] makes for [params]. *)
Definition hashkey_call (params : Json) : HttpCall :=
  mkCall POST
    (mkReq "/uapi/hashkey" None params (Some false) (Some false) None)
    true None.

(** [m] posts [req] under a hash key: it first posts the hash-key
    request for the parameters of [req]; when that request fails, or
    its reply holds no hash, [m] raises with that one request made;
    otherwise it posts [req] with the hash among the headers, an
    exception of that request is the exception of [m], and [returns]
    relates its answer to what [m] returns. *)
Definition posts_hashed {A} (m : M A) (req : APIRequestParameter)
    (returns : APIResponse → Result A → Prop) (w : World) : Prop :=
  let h := hashkey_call (params req) in
  match transport (traffic w) h with
  | Raise e => m w = (Raise e, after w [h])
  | Ok reply =>
      match body_hash reply with
      | None => m w = (Raise (KeyError "HASH"), after w [h])
      | Some hash =>
          let c := mkCall POST req true (Some hash) in
          (m w).2 = after w [h; c] ∧
          match transport (traffic w ++ [h]) c with
          | Raise e => (m w).1 = Raise e
          | Ok response => returns response (m w).1
          end
      end
  end.

(** *** Current prices *)

Definition _get_kr_stock_current_price_info (ticker : string) : M JVal :=
  let url_path := "/uapi/domestic-stock/v1/quotations/inquire-price" in
  let tr_id := "FHKST01010100" in
  let params := dict [
    ("FID_COND_MRKT_DIV_CODE", "J");
    ("FID_INPUT_ISCD", ticker)] in
  let req := mkReq url_path (Some tr_id) params None None None in
  do res <- _send_get_request req true;
  lift (list_getitem (outputs res) 0).

Definition get_kr_current_price (ticker : string) : M Z :=
  do info <- _get_kr_stock_current_price_info ticker;
  do price <- lift (jval_getitem info "stck_prpr");
  lift (py_int price).

Definition get_kr_max_price (ticker : string) : M Z :=
  do info <- _get_kr_stock_current_price_info ticker;
  do price <- lift (jval_getitem info "stck_mxpr");
  lift (py_int price).

Definition get_kr_min_price (ticker : string) : M Z :=
  do info <- _get_kr_stock_current_price_info ticker;
  do price <- lift (jval_getitem info "stck_llam");
  lift (py_int price).

Definition _get_os_stock_current_price_info (ticker market_code : string)
    : M JVal :=
  let url_path := "/uapi/overseas-price/v1/quotations/price" in
  let tr_id := "HHDFS00000300" in
  let ticker := str_upper ticker in
  let market_code := str_upper market_code in
  let params := dict [
    ("AUTH", "");
    ("EXCD", market_code);
    ("SYMB", ticker)] in
  let req := mkReq url_path (Some tr_id) params None None None in
  do res <- _send_get_request req true;
  lift (list_getitem (outputs res) 0).

Definition get_os_current_price (ticker market_code : string)
    : M spec_float :=
  do info <- _get_os_stock_current_price_info ticker market_code;
  do price <- lift (jval_getitem info "last");
  lift (py_float price).

(** *** The settled-balance request *)

(** The [extra_param] argument is rebound to a fixed dictionary before
    it is read. *)
Definition _get_inquire_present_balance
    (extra_header extra_param : option Json) : M APIResponse :=
  let url_path :=
    "/uapi/overseas-stock/v1/trading/inquire-present-balance" in
  do real <- self_domain_is_real;
  let tr_id := if real then "CTRP6504R" else "VTRP6504R" in
  let extra_param := Some (dict [
    ("WCRC_FRCR_DVSN_CD", "01");
    ("NATN_CD", "000");
    ("TR_MKET_CD", "00");
    ("INQR_DVSN_CD", "00")]) in
  let extra_header := none_to_empty_dict extra_header in
  let extra_param := none_to_empty_dict extra_param in
  let extra_header := merge_json [dict [("tr_cont", "")]; extra_header] in
  let query_code := get_continuous_query_code false in
  do cano <- self_account account_code "account_code";
  do prdt <- self_account product_code "product_code";
  let params := dict [
    ("CANO", cano);
    ("ACNT_PRDT_CD", prdt);
    ("CTX_AREA_FK" +:+ query_code, "");
    ("CTX_AREA_NK" +:+ query_code, "")] in
  let params := merge_json [params; extra_param] in
  let req :=
    mkReq url_path (Some tr_id) params None None (Some extra_header) in
  _send_get_request req true.

(** *** Revision at the current price, cancellation of all orders *)


Definition get_os_sell_orders (fuel : nat) : D (list DRow) :=
  get_os_orders_by_flag fuel.

(** The class body defines [revise_os_order_by_current_price] twice;
    the later definition, of the one parameter [order_id], is the
    method of the class.  [data[...]] fails on [None]; on a frame the
    selection is made and then [if order] asks a frame for its truth
    value, which pandas refuses. *)
Definition revise_os_order_by_current_price (order_id : PyVal)
    : M (option APIResponse) :=
  do data <- get_os_orders;
  do column <- lift (frame_column data "orgn_odno");
  raise (ValueError "The truth value of a DataFrame is ambiguous").







(** The [for] loop of [cancel_all_kr_orders] over the zipped index and
    branch column. *)
Fixpoint cancel_each_kr (orders branchs : list PyVal) : M () :=
  match orders, branchs with
  | order :: orders', branch :: branchs' =>
      do _ <- cancel_kr_order order None (str_of branch);
      cancel_each_kr orders' branchs'
  | _, _ => ret ()
  end.

Definition cancel_all_kr_orders (fuel : nat) : D () :=
  doD data <- get_kr_orders fuel;
  liftD (do orders <- lift (frame_index (Some data));
         do branchs <- lift (frame_column (Some data) "주문점");
         cancel_each_kr orders branchs).






(** *** A small synthetic server *)

Definition example_account : Account := mkAccount "12345678" "01".

Definition example_world : World := mkWorld (Some example_account) true [].


Definition example_row (id : string) : Json := dict [("pdno", id)].

Definition example_page (flag fk nk : string) (ids : list string)
    : APIResponse :=
  mkRes true flag fk nk
    [JArr (example_row <$> ids)] (JArr (example_row <$> ids)) None.

Definition example_reshape (_ : Schema) (rows : list Json)
    : Result (list string) :=
  Ok ((λ row, default "" (row !! "pdno")) <$> rows).

(** Frames of one column and no index of their own: a row is what it
    holds. *)
Definition example_columns (row : string) : string := row.

Definition example_transport (script : nat → Result APIResponse)
    : list HttpCall → HttpCall → Result APIResponse :=
  λ log _, script (length log).

Definition example_first : APIResponse :=
  example_page "F" "X" "Y" ["A"; "B"].

Definition example_last : APIResponse :=
  example_page "D" "" "" ["B"; "C"].

Definition example_pages : list APIResponse :=
  [example_first; example_last].

Definition example_frames : list (list string) :=
  [["A"; "B"]; ["B"; "C"]].

Definition example_server
    : list HttpCall → HttpCall → Result APIResponse :=
  example_transport (script_of_pages example_pages).

(** A server that always says more data, and one that fails on the
    second request. *)
Definition example_endless : nat → Result APIResponse :=
  λ _, Ok (example_page "F" "X" "Y" ["A"]).

Definition example_failing : nat → Result APIResponse :=
  λ k, match k with
       | O => Ok example_first
       | S _ => Raise (TransportError "connection reset")
       end.


Definition example_known (code : string) : Result string := Ok code.

(** Rows of the open-orders answers, with the fields the helpers of
    [get_kr_orders] and [get_os_orders_by_flag] read, in two pages; a
    reshaping that, like [set_index("odno")], needs the order number
    of every row and makes it the row. *)
Definition example_order (id : string) : Json :=
  dict [("odno", id); ("pdno", "AAPL"); ("orgn_odno", "");
        ("ord_qty", "1"); ("psbl_qty", "1"); ("ord_unpr", "189.5");
        ("ft_ord_qty", "1"); ("ft_ccld_qty", "0"); ("nccs_qty", "1");
        ("ft_ord_unpr3", "189.5"); ("sll_buy_dvsn_cd", "02");
        ("ord_tmd", "093000"); ("ord_gno_brno", "06010");
        ("ovrs_excg_cd", "NASD"); ("tr_crcy_cd", "USD");
        ("prcs_stat_name", ""); ("rjct_rson_name", ""); ("rjct_rson", "")].

Definition example_orders_page (flag fk nk : string) (ids : list string)
    : APIResponse :=
  mkRes true flag fk nk [JArr (example_order <$> ids)] (JArr []) None.

Definition example_order_pages : list APIResponse :=
  [example_orders_page "F" "X" "Y" ["1"; "2"];
   example_orders_page "D" "" "" ["2"; "3"]].

Definition example_orders_reshape (_ : Schema) (rows : list Json)
    : Result (list string) :=
  match mapM (λ row, row !! "odno") rows with
  | Some ids => Ok ids
  | None => Raise (KeyError "odno")
  end.

(** A server that plays the two pages of orders to the GET requests
    and acknowledges every POST request with a body that holds a
    hash; frames whose rows are their own index and cells. *)
Definition example_ack : APIResponse :=
  mkRes true "" "" "" [JArr []] (JArr []) (Some "c0ffee").

Definition example_exchange : list HttpCall → HttpCall → Result APIResponse :=
  λ log c, match call_method c with
           | GET => script_of_pages example_order_pages (length log)
           | POST => Ok example_ack
           end.






Definition example_index (row : string) : PyVal := PStr row.

Definition example_cell (column row : string) : option PyVal :=
  Some (PStr row).

(** A paper-trading session of the same account. *)
Definition example_paper : World := mkWorld (Some example_account) false [].

(** A quotation whose first output is an object without the lowest
    price, a balance page with a deposit row, and a response without
    output. *)
Definition example_quote : APIResponse :=
  mkRes true "" "" ""
    [JObj (dict [("stck_prpr", "70000"); ("stck_mxpr", "91000");
                 ("last", "189.5"); ("ord_psbl_cash", "1000")])]
    (JObj (dict [])) None.

Definition example_balance : APIResponse :=
  mkRes true "" "" ""
    [JArr []; JArr [dict [("prvs_rcdl_excc_amt", "1000")]]]
    (JObj (dict [("ovrs_ord_psbl_amt", "0");
                 ("frcr_ord_psbl_amt1", "10.5")])) None.

Definition example_bare : APIResponse :=
  mkRes true "" "" "" [] (JObj (dict [])) None.

(** [int] on the numerals of these responses. *)
Definition example_int (s : string) : Result Z :=
  if decide (s = "70000") then Ok 70000
  else if decide (s = "91000") then Ok 91000
  else if decide (s = "1000") then Ok 1000
  else Raise (ValueError s).


(** ** Facts about [drop_duplicates] *)




















(** ** Facts about the request builders *)

Lemma merge_json_pair (a b : Json) : merge_json [a; b] = b ∪ a.
Proof. unfold merge_json. simpl. by rewrite (right_id_L ∅ (∪)). Qed.

Lemma merge_json_later (a b : Json) (key v : string) :
  b !! key = Some v → merge_json [a; b] !! key = Some v.
Proof. rewrite merge_json_pair. apply lookup_union_Some_l. Qed.

Lemma merge_json_earlier (a b : Json) (key : string) :
  b !! key = None → merge_json [a; b] !! key = a !! key.
Proof. rewrite merge_json_pair. apply lookup_union_r. Qed.

Lemma send_get_request_ret (req : APIRequestParameter) (w : World) :
  (do res <- _send_get_request req true; ret res) w
  = _send_get_request req true w.
Proof.
  unfold bind, _send_get_request, ret.
  by destruct (transport _ _).
Qed.

Lemma bind_self_account {B} (field : Account → string) (name : string)
    (k : string → M B) (w : World) (a : Account) :
  account w = Some a →
  (do x <- self_account field name; k x) w = k (field a) w.
Proof. intros Ha. unfold bind, self_account. by rewrite Ha. Qed.

Lemma bind_self_account_None {B} (field : Account → string)
    (name : string) (k : string → M B) (w : World) :
  account w = None →
  (do x <- self_account field name; k x) w
  = (Raise (AttributeError
       ("'NoneType' object has no attribute '" +:+ name +:+ "'")), w).
Proof. intros Ha. unfold bind, self_account. by rewrite Ha. Qed.

Lemma bind_domain_is_real {B} (k : bool → M B) (w : World) :
  (do real <- self_domain_is_real; k real) w = k (domain_is_real w) w.
Proof. done. Qed.

Lemma bind_lift_Ok {A B} (a : A) (k : A → M B) (w : World) :
  (do x <- lift (Ok a); k x) w = k a w.
Proof. done. Qed.


Lemma none_to_empty_dict_Some (d : Json) :
  none_to_empty_dict (Some d) = d.
Proof. done. Qed.

Ltac run_builder Ha :=
  repeat first
    [ rewrite bind_domain_is_real
    | rewrite bind_lift_Ok
    | rewrite (bind_self_account _ _ _ _ _ Ha)
    | rewrite send_get_request_ret ].

Ltac carried_field Hk :=
  repeat first [ exact Hk | apply merge_json_later ].

Ltac default_field Hk :=
  repeat (rewrite merge_json_earlier;
          [| first [ exact Hk
                   | rewrite merge_json_earlier by exact Hk;
                     by vm_compute ]]);
  by vm_compute.

Ltac carries_cursor :=
  unfold _send_get_request;
  eexists; split; [reflexivity|]; split; [reflexivity|];
  cbn [call_req params]; rewrite ?none_to_empty_dict_Some; split;
  [ intros key v Hk; carried_field Hk
  | intros key Hin Hk;
    unfold builder_code, cursor_names in Hin; simpl in Hin;
    apply elem_of_cons in Hin as [->|Hin];
    [| apply list_elem_of_singleton in Hin as ->];
    default_field Hk ].

(** With an account (and a known market code) a request function
    makes one GET request and nothing else, and the request carries
    the cursor dictionary it was given. *)
Lemma request_function_fetch (q : PagedQuery)
    (eh ep : option Json) (w : World) :
  ready q w →
  ∃ c, request_function_of q eh ep w = (transport (traffic w) c, sent c w)
       ∧ carries q ep c.
Proof.
  intros [[a Ha] Hq].
  destruct q; simpl in Hq;
    unfold request_function_of, _get_kr_total_balance,
      _get_os_total_balance, _get_total_balance, _get_order_history,
      _get_kr_orders_once, _get_os_orders_once.
  - run_builder Ha. carries_cursor.
  - destruct Hq as [cc ->]. run_builder Ha. carries_cursor.
  - run_builder Ha. carries_cursor.
  - run_builder Ha. carries_cursor.
  - run_builder Ha. carries_cursor.
  - destruct Hq as [m ->]. run_builder Ha. carries_cursor.
Qed.

Lemma ready_after (q : PagedQuery) (w : World) (calls : list HttpCall) :
  ready q w → ready q (after w calls).
Proof. done. Qed.

Lemma sent_after (w : World) (c : HttpCall) : sent c w = after w [c].
Proof. done. Qed.

Lemma after_after (w : World) (l1 l2 : list HttpCall) :
  after (after w l1) l2 = after w (l1 ++ l2).
Proof. unfold after. simpl. by rewrite (assoc_L (++)). Qed.

Lemma after_nil (w : World) : after w [] = w.
Proof. destruct w. unfold after. simpl. by rewrite (right_id_L [] (++)). Qed.

Lemma paged_query_unfold (q : PagedQuery) (fuel : nat) :
  paged_query q fuel
  = continuous_query_loop fuel (request_function_of q)
      (to_dataframe_for q) (pager_code q) None [].
Proof. by destruct q. Qed.

(** One turn of the pager's loop. *)
Lemma loop_step (q : PagedQuery) (fuel : nat)
    (to_dataframe : APIResponse → Result (list DRow))
    (query_code : string) (ep : option Json)
    (outs : list (list DRow)) (w : World) :
  ready q w →
  ∃ c, carries q ep c ∧
    continuous_query_loop (S fuel) (request_function_of q) to_dataframe
      query_code ep outs w
    = match transport (traffic w) c with
      | Raise e => Some (Raise e, after w [c])
      | Ok res =>
          match to_dataframe res with
          | Raise e => Some (Raise e, after w [c])
          | Ok output =>
              if has_more (tr_cont res)
              then continuous_query_loop fuel (request_function_of q)
                     to_dataframe query_code
                     (Some (cursor_param query_code res))
                     (outs ++ [output]) (after w [c])
              else Some (Ok (drop_duplicates row_columns
                               (concat (outs ++ [output]))),
                         after w [c])
          end
      end.
Proof.
  intros Hr.
  destruct (request_function_fetch q None ep w Hr) as (c & Hc & Hcar).
  exists c. split; [done|].
  simpl. unfold bindD at 1, liftD at 1. rewrite Hc, <- sent_after.
  destruct (transport (traffic w) c) as [res|e]; [|done].
  unfold bindD, liftD, lift.
  destruct (to_dataframe res) as [output|e]; [|done].
  by destruct (has_more (tr_cont res)).
Qed.

(** ** Runs of the pager against a scripted server *)

Lemma plays_now (base k : nat) (script : nat → Result APIResponse)
    (w : World) (c : HttpCall) :
  plays base script → length (traffic w) = (base + k)%nat →
  transport (traffic w) c = script k.
Proof.
  intros Hplay Hlen. rewrite Hplay, Hlen by lia. f_equal. lia.
Qed.

Lemma cursors_cons (query_code : string) (ep : option Json)
    (page : APIResponse) (pages : list APIResponse) :
  cursors query_code ep (page :: pages)
  = ep :: cursors query_code (Some (cursor_param query_code page)) pages.
Proof. done. Qed.

Lemma cursors_length (query_code : string) (ep : option Json)
    (pages : list APIResponse) :
  length (cursors query_code ep pages) = S (length pages).
Proof. unfold cursors. simpl. by rewrite length_fmap. Qed.

Lemma default_last_cons {A} (d d' x : A) (l : list A) :
  default d (last (x :: l)) = default d' (last (x :: l)).
Proof.
  revert x. induction l as [|y l IH]; intros x; [done|]. apply (IH y).
Qed.

(** The cursor dictionary the pager holds after [pages]. *)
Lemma last_cursors_cons (query_code : string) (ep : option Json)
    (page : APIResponse) (pages : list APIResponse) :
  default ep (last (cursors query_code ep (page :: pages)))
  = default (Some (cursor_param query_code page))
      (last (cursors query_code (Some (cursor_param query_code page))
               pages)).
Proof.
  change (last (cursors query_code ep (page :: pages)))
    with (last (cursors query_code
                  (Some (cursor_param query_code page)) pages)).
  apply default_last_cons.
Qed.

(** While the pages say more data, the pager goes on: it spends one
    unit of fuel and one request per page, and each request carries
    the cursor of the page before. *)
Lemma loop_continue (q : PagedQuery) (base : nat)
    (script : nat → Result APIResponse)
    (to_dataframe : APIResponse → Result (list DRow))
    (query_code : string) :
  plays base script →
  ∀ (init : list APIResponse) (frames : list (list DRow))
    (fuel k : nat) (ep : option Json) (outs : list (list DRow))
    (w : World),
    ready q w →
    length (traffic w) = (base + k)%nat →
    (∀ i page, init !! i = Some page → script (k + i)%nat = Ok page) →
    Forall (λ page, has_more (tr_cont page) = true) init →
    Forall2 (λ page frame, to_dataframe page = Ok frame) init frames →
    ∃ calls,
      Forall2 (carries q)
        (take (length init) (cursors query_code ep init)) calls ∧
      continuous_query_loop (length init + fuel) (request_function_of q)
        to_dataframe query_code ep outs w
      = continuous_query_loop fuel (request_function_of q)
          to_dataframe query_code
          (default ep (last (cursors query_code ep init)))
          (outs ++ frames) (after w calls).
Proof.
  intros Hplay init.
  induction init as [|page init IH];
    intros frames fuel k ep outs w Hr Hlen Hscript Hmore Hframes.
  - apply Forall2_nil_inv_l in Hframes as ->.
    exists []. split; [constructor|].
    by rewrite after_nil, (right_id_L [] (++)).
  - apply Forall2_cons_inv_l in Hframes
      as (frame & frames' & Hframe & Hframes & ->).
    apply Forall_cons in Hmore as [Hpage Hmore].
    destruct (loop_step q (length init + fuel) to_dataframe query_code
                ep outs w Hr) as (c & Hcar & Hstep).
    rewrite (plays_now base k script w c Hplay Hlen) in Hstep.
    rewrite <- (Nat.add_0_r k), (Hscript 0%nat page eq_refl) in Hstep.
    rewrite Hframe, Hpage in Hstep.
    destruct (IH frames' fuel (S k)
                (Some (cursor_param query_code page))
                (outs ++ [frame]) (after w [c]))
      as (calls & Hcalls & Hrun).
    + by apply ready_after.
    + simpl. rewrite length_app, Hlen. simpl. lia.
    + intros i p Hi. rewrite <- (Hscript (S i) p Hi). f_equal. lia.
    + done.
    + done.
    + exists (c :: calls). split.
      * rewrite cursors_cons. simpl. by constructor.
      * simpl length. simpl Nat.add. rewrite Hstep, Hrun.
        rewrite last_cursors_cons, after_after, <- (assoc_L (++)).
        done.
Qed.

Lemma take_snoc_last {A} (l : list A) (n : nat) (d : A) :
  length l = S n → take n l ++ [default d (last l)] = l.
Proof.
  revert n. induction l as [|x l IH]; intros n Hlen; [done|].
  destruct l as [|y l].
  - simpl in Hlen. by replace n with 0%nat by lia.
  - destruct n as [|n]; [simpl in Hlen; lia|].
    simpl take. change (last (x :: y :: l)) with (last (y :: l)).
    simpl. f_equal. apply IH. simpl in *. lia.
Qed.

(** The pager against a script whose first pages say more data and
    whose next page is terminal. *)
Lemma pager_run (q : PagedQuery) (base : nat)
    (script : nat → Result APIResponse)
    (init : list APIResponse) (final : APIResponse)
    (frames : list (list DRow)) (fuel : nat) (w : World) :
  plays base script →
  ready q w →
  length (traffic w) = base →
  (∀ i page, (init ++ [final]) !! i = Some page → script i = Ok page) →
  Forall (λ page, has_more (tr_cont page) = true) init →
  has_more (tr_cont final) = false →
  Forall2 (λ page frame, to_dataframe_for q page = Ok frame)
    (init ++ [final]) frames →
  (length (init ++ [final]) ≤ fuel)%nat →
  ∃ calls,
    paged_query q fuel w
    = Some (Ok (drop_duplicates row_columns (concat frames)), after w calls) ∧
    Forall2 (carries q) (cursors (pager_code q) None init) calls.
Proof.
  intros Hplay Hr Hlen Hscript Hmore Hfinal Hframes Hfuel.
  apply Forall2_app_inv_l in Hframes
    as (frames_init & frames_final & Hinit & Hlast & ->).
  apply Forall2_cons_inv_l in Hlast as (frame & rest & Hframe & Hnil & ->).
  apply Forall2_nil_inv_l in Hnil as ->.
  rewrite length_app in Hfuel. simpl in Hfuel.
  destruct (loop_continue q base script (to_dataframe_for q)
              (pager_code q) Hplay init frames_init
              (fuel - length init) 0 None [] w)
    as (calls & Hcalls & Hrun); try done.
  { by rewrite Nat.add_0_r. }
  { intros i page Hi. apply Hscript. by apply lookup_app_l_Some. }
  rewrite paged_query_unfold.
  replace fuel with (length init + (fuel - length init))%nat by lia.
  rewrite Hrun.
  destruct (fuel - length init)%nat as [|fuel'] eqn:Hf; [lia|].
  destruct (loop_step q fuel' (to_dataframe_for q) (pager_code q)
              (default None (last (cursors (pager_code q) None init)))
              ([] ++ frames_init) (after w calls))
    as (c & Hcar & Hstep); [by apply ready_after|].
  rewrite Hstep.
  assert (length calls = length init) as Hcl.
  { apply Forall2_length in Hcalls. rewrite <- Hcalls, length_take.
    rewrite cursors_length. lia. }
  rewrite (plays_now base (length init) script (after w calls) c Hplay).
  2:{ simpl. rewrite length_app. lia. }
  rewrite (Hscript (length init) final).
  2:{ rewrite lookup_app_r by lia. by rewrite Nat.sub_diag. }
  rewrite Hframe, Hfinal, after_after.
  exists (calls ++ [c]). split; [done|].
  rewrite <- (take_snoc_last (cursors (pager_code q) None init)
                (length init) None) by apply cursors_length.
  apply Forall2_app; [done|]. by constructor.
Qed.

(** The pager against a script whose first pages say more data and
    whose next request fails. *)
Lemma pager_abort (q : PagedQuery) (base : nat)
    (script : nat → Result APIResponse)
    (init : list APIResponse) (e : Exn)
    (frames : list (list DRow)) (fuel : nat) (w : World) :
  plays base script →
  ready q w →
  length (traffic w) = base →
  (∀ i page, init !! i = Some page → script i = Ok page) →
  script (length init) = Raise e →
  Forall (λ page, has_more (tr_cont page) = true) init →
  Forall2 (λ page frame, to_dataframe_for q page = Ok frame)
    init frames →
  (length init < fuel)%nat →
  ∃ calls,
    paged_query q fuel w = Some (Raise e, after w calls) ∧
    length calls = S (length init).
Proof.
  intros Hplay Hr Hlen Hscript Hfail Hmore Hframes Hfuel.
  destruct (loop_continue q base script (to_dataframe_for q)
              (pager_code q) Hplay init frames
              (fuel - length init) 0 None [] w)
    as (calls & Hcalls & Hrun); try done.
  { by rewrite Nat.add_0_r. }
  rewrite paged_query_unfold.
  replace fuel with (length init + (fuel - length init))%nat by lia.
  rewrite Hrun.
  destruct (fuel - length init)%nat as [|fuel'] eqn:Hf; [lia|].
  destruct (loop_step q fuel' (to_dataframe_for q) (pager_code q)
              (default None (last (cursors (pager_code q) None init)))
              ([] ++ frames) (after w calls))
    as (c & Hcar & Hstep); [by apply ready_after|].
  rewrite Hstep.
  assert (length calls = length init) as Hcl.
  { apply Forall2_length in Hcalls. rewrite <- Hcalls, length_take.
    rewrite cursors_length. lia. }
  rewrite (plays_now base (length init) script (after w calls) c Hplay).
  2:{ simpl. rewrite length_app. lia. }
  rewrite Hfail, after_after.
  exists (calls ++ [c]). split; [done|].
  rewrite length_app. simpl. lia.
Qed.




(** If every page says more data, no amount of fuel is enough. *)
Lemma loop_never_returns (q : PagedQuery) (base : nat)
    (script : nat → Result APIResponse) (query_code : string) :
  plays base script →
  (∀ n, ∃ page frame,
      script n = Ok page ∧ has_more (tr_cont page) = true ∧
      to_dataframe_for q page = Ok frame) →
  ∀ (fuel k : nat) (ep : option Json) (outs : list (list DRow))
    (w : World),
    ready q w → length (traffic w) = (base + k)%nat →
    continuous_query_loop fuel (request_function_of q)
      (to_dataframe_for q) query_code ep outs w = None.
Proof.
  intros Hplay Hall fuel.
  induction fuel as [|fuel IH]; intros k ep outs w Hr Hlen; [done|].
  destruct (loop_step q fuel (to_dataframe_for q) query_code ep outs w Hr)
    as (c & _ & ->).
  rewrite (plays_now base k script w c Hplay Hlen).
  destruct (Hall k) as (page & frame & -> & -> & ->).
  apply (IH (S k)); [by apply ready_after|].
  simpl. rewrite length_app, Hlen. simpl. lia.
Qed.

(** If some page carries the terminal flag, the loop returns, at the
    latest on that page. *)
Lemma loop_returns (q : PagedQuery) (base : nat)
    (script : nat → Result APIResponse) (query_code : string) :
  plays base script →
  ∀ (n k : nat) (page : APIResponse) (ep : option Json)
    (outs : list (list DRow)) (w : World),
    ready q w → length (traffic w) = (base + k)%nat →
    script (k + n)%nat = Ok page → has_more (tr_cont page) = false →
    ∃ r calls,
      continuous_query_loop (S n) (request_function_of q)
        (to_dataframe_for q) query_code ep outs w
      = Some (r, after w calls) ∧
      (length calls ≤ S n)%nat.
Proof.
  intros Hplay n.
  induction n as [|n IH]; intros k page ep outs w Hr Hlen Hpage Hflag.
  - destruct (loop_step q 0 (to_dataframe_for q) query_code ep outs w Hr)
      as (c & _ & ->).
    rewrite (plays_now base k script w c Hplay Hlen).
    rewrite Nat.add_0_r in Hpage. rewrite Hpage, Hflag.
    destruct (to_dataframe_for q page);
      eexists _, [c]; (split; [reflexivity | simpl; lia]).
  - destruct (loop_step q (S n) (to_dataframe_for q) query_code ep outs
                w Hr) as (c & _ & ->).
    rewrite (plays_now base k script w c Hplay Hlen).
    destruct (script k) as [res|e];
      [| eexists _, [c]; split; [reflexivity | simpl; lia]].
    destruct (to_dataframe_for q res) as [frame|e];
      [| eexists _, [c]; split; [reflexivity | simpl; lia]].
    destruct (has_more (tr_cont res));
      [| eexists _, [c]; split; [reflexivity | simpl; lia]].
    destruct (IH (S k) page (Some (cursor_param query_code res))
                (outs ++ [frame]) (after w [c]))
      as (r & calls & Hrun & Hcalls).
    + by apply ready_after.
    + simpl. rewrite length_app, Hlen. simpl. lia.
    + rewrite <- Hpage. f_equal. lia.
    + done.
    + exists r, (c :: calls). rewrite Hrun, after_after.
      split; [done | simpl; lia].
Qed.

(** ** Without an account *)





Lemma bindD_Raise {A B} (m : D A) (k : A → D B) (e : Exn)
    (w w' : World) :
  m w = Some (Raise e, w') → (doD x <- m; k x) w = Some (Raise e, w').
Proof. intros Hm. unfold bindD. by rewrite Hm. Qed.

Lemma bind_Raise {A B} (m : M A) (k : A → M B) (e : Exn)
    (w w' : World) :
  m w = (Raise e, w') → (do x <- m; k x) w = (Raise e, w').
Proof. intros Hm. unfold bind. by rewrite Hm. Qed.








(** ** The claims *)


Lemma script_of_pages_lookup (pages : list APIResponse) (i : nat)
    (page : APIResponse) :
  pages !! i = Some page → script_of_pages pages i = Ok page.
Proof. intros Hi. unfold script_of_pages. by rewrite Hi. Qed.



Lemma cursor_names_distinct (query_code : string) :
  "CTX_AREA_FK" +:+ query_code ≠ "CTX_AREA_NK" +:+ query_code.
Proof. cbn [String.append]. intros Heq. discriminate Heq. Qed.

Lemma cursor_param_lookup (query_code : string) (page : APIResponse) :
  cursor_param query_code page !! ("CTX_AREA_FK" +:+ query_code)
  = Some (forward_key page) ∧
  cursor_param query_code page !! ("CTX_AREA_NK" +:+ query_code)
  = Some (next_key page).
Proof.
  unfold cursor_param, dict. cbn [foldl fst snd]. split.
  - rewrite lookup_insert_ne; [apply lookup_insert_eq|].
    apply not_eq_sym, cursor_names_distinct.
  - apply lookup_insert_eq.
Qed.

Lemma cursors_lookup_S (query_code : string) (ep : option Json)
    (pages : list APIResponse) (k : nat) (page : APIResponse) :
  pages !! k = Some page →
  cursors query_code ep pages !! S k
  = Some (Some (cursor_param query_code page)).
Proof.
  intros Hk. unfold cursors. rewrite lookup_cons_ne_0 by done.
  cbn [pred]. by rewrite list_lookup_fmap, Hk.
Qed.

(** C2. In the run of a paged query the first request has empty
    cursor fields, and request [k+1] has, under the names the pager
    selects, the forward key and the next key of the page the server
    gave in answer to request [k], as they stand. *)
Theorem cursor_carried_verbatim (q : PagedQuery)
    (init : list APIResponse) (final : APIResponse)
    (frames : list (list DRow)) (fuel : nat) (w : World) :
  plays (length (traffic w)) (script_of_pages (init ++ [final])) →
  ready q w →
  Forall (λ page, has_more (tr_cont page) = true) init →
  has_more (tr_cont final) = false →
  Forall2 (λ page frame, to_dataframe_for q page = Ok frame)
    (init ++ [final]) frames →
  (length (init ++ [final]) ≤ fuel)%nat →
  ∃ calls,
    paged_query q fuel w
    = Some (Ok (drop_duplicates row_columns (concat frames)), after w calls) ∧
    length calls = S (length init) ∧
    (∀ k c page, calls !! k = Some c → (init ++ [final]) !! k = Some page →
       transport (traffic w ++ take k calls) c = Ok page) ∧
    (∀ first, calls !! 0%nat = Some first →
       ∀ key, key ∈ cursor_names (builder_code q) →
              params (call_req first) !! key = Some "") ∧
    (∀ k page next, init !! k = Some page → calls !! S k = Some next →
       params (call_req next) !! ("CTX_AREA_FK" +:+ pager_code q)
       = Some (forward_key page) ∧
       params (call_req next) !! ("CTX_AREA_NK" +:+ pager_code q)
       = Some (next_key page)).
Proof.
  intros Hplay Hr Hmore Hfinal Hframes Hfuel.
  destruct (pager_run q (length (traffic w))
              (script_of_pages (init ++ [final])) init final frames
              fuel w Hplay Hr eq_refl
              (script_of_pages_lookup (init ++ [final]))
              Hmore Hfinal Hframes Hfuel) as (calls & Hrun & Hcalls).
  assert (length calls = S (length init)) as Hlen.
  { apply Forall2_length in Hcalls. by rewrite <- Hcalls, cursors_length. }
  exists calls.
  split; [exact Hrun|]. split; [exact Hlen|]. split; [|split].
  - intros k c page Hc Hpage.
    rewrite Hplay by (rewrite length_app; lia).
    apply lookup_lt_Some in Hc.
    rewrite length_app, length_take.
    replace (length (traffic w) + k `min` length calls
             - length (traffic w))%nat with k by lia.
    by apply script_of_pages_lookup.
  - intros first Hfirst key Hkey.
    destruct (Forall2_lookup_lr _ _ _ 0%nat None first Hcalls eq_refl Hfirst)
      as (_ & _ & Hempty).
    apply Hempty; [exact Hkey|]. apply lookup_empty.
  - intros k page next Hpage Hnext.
    destruct (Forall2_lookup_lr _ _ _ (S k)
                (Some (cursor_param (pager_code q) page)) next Hcalls)
      as (_ & Hcar & _);
      [by apply cursors_lookup_S | exact Hnext |].
    destruct (cursor_param_lookup (pager_code q) page) as [Hfk Hnk].
    split; apply Hcar; rewrite none_to_empty_dict_Some;
      [exact Hfk | exact Hnk].
Qed.

(** C3. The pager asks for another page exactly as long as the pages
    say more data: after [n] such pages and a terminal one it has
    made [n + 1] requests and returns.  Hence it returns whenever
    some page of the script carries the terminal flag; and, the loop
    having no bound of its own, it never returns when every page
    says more data. *)
Theorem pager_stops_on_terminal_flag (q : PagedQuery)
    (script : nat → Result APIResponse) (w : World) :
  plays (length (traffic w)) script →
  ready q w →
  (∀ init final frames fuel,
     (∀ i page, (init ++ [final]) !! i = Some page → script i = Ok page) →
     Forall (λ page, has_more (tr_cont page) = true) init →
     has_more (tr_cont final) = false →
     Forall2 (λ page frame, to_dataframe_for q page = Ok frame)
       (init ++ [final]) frames →
     (length init < fuel)%nat →
     ∃ calls,
       paged_query q fuel w
       = Some (Ok (drop_duplicates row_columns (concat frames)),
               after w calls) ∧
       length calls = S (length init)) ∧
  ((∃ n page, script n = Ok page ∧ has_more (tr_cont page) = false) →
   ∃ fuel r calls, paged_query q fuel w = Some (r, after w calls)) ∧
  ((∀ n, ∃ page frame,
       script n = Ok page ∧ has_more (tr_cont page) = true ∧
       to_dataframe_for q page = Ok frame) →
   ∀ fuel, paged_query q fuel w = None).
Proof.
  intros Hplay Hr. split; [|split].
  - intros init final frames fuel Hscript Hmore Hfinal Hframes Hfuel.
    destruct (pager_run q (length (traffic w)) script init final frames
                fuel w Hplay Hr eq_refl Hscript Hmore Hfinal Hframes)
      as (calls & Hrun & Hcalls).
    { rewrite length_app. simpl. lia. }
    exists calls. split; [exact Hrun|].
    apply Forall2_length in Hcalls. by rewrite <- Hcalls, cursors_length.
  - intros (n & page & Hpage & Hflag).
    destruct (loop_returns q (length (traffic w)) script (pager_code q)
                Hplay n 0 page None [] w Hr)
      as (r & calls & Hrun & _); [lia | exact Hpage | exact Hflag |].
    exists (S n), r, calls. rewrite paged_query_unfold. exact Hrun.
  - intros Hall fuel. rewrite paged_query_unfold.
    apply (loop_never_returns q (length (traffic w)) script (pager_code q)
             Hplay Hall fuel 0 None [] w Hr).
    lia.
Qed.

Lemma wrapper_Raise (m : D (list DRow)) (e : Exn) (w w' : World) :
  m w = Some (Raise e, w') →
  (doD data <- m;
   doD all <- liftD (lift (pd_concat [data]));
   retD (drop_duplicates row_columns all)) w
  = Some (Raise e, w').
Proof. apply bindD_Raise. Qed.

(** C7. When the request after [n] pages that say more data fails in
    the HTTP layer, the paged query ends with that very exception:
    nothing is returned of the pages fetched so far, and the failed
    request is the last one made.  The public order-history methods
    pass the exception on. *)
Theorem transport_error_aborts (q : PagedQuery)
    (script : nat → Result APIResponse)
    (init : list APIResponse) (e : Exn)
    (frames : list (list DRow)) (fuel : nat) (w : World) :
  plays (length (traffic w)) script →
  ready q w →
  (∀ i page, init !! i = Some page → script i = Ok page) →
  script (length init) = Raise e →
  Forall (λ page, has_more (tr_cont page) = true) init →
  Forall2 (λ page frame, to_dataframe_for q page = Ok frame)
    init frames →
  (length init < fuel)%nat →
  ∃ calls,
    paged_query q fuel w = Some (Raise e, after w calls) ∧
    length calls = S (length init) ∧
    (q = KrOrderHistory →
     get_kr_order_history fuel w = Some (Raise e, after w calls)) ∧
    (q = OsOrderHistory →
     get_os_order_history fuel w = Some (Raise e, after w calls)).
Proof.
  intros Hplay Hr Hscript Hfail Hmore Hframes Hfuel.
  destruct (pager_abort q (length (traffic w)) script init e frames fuel w
              Hplay Hr eq_refl Hscript Hfail Hmore Hframes Hfuel)
    as (calls & Hrun & Hlen).
  exists calls. split; [exact Hrun|]. split; [exact Hlen|].
  split; intros Hq; rewrite Hq in Hrun.
  - unfold get_kr_order_history. apply wrapper_Raise. exact Hrun.
  - unfold get_os_order_history. apply wrapper_Raise. exact Hrun.
Qed.




(** C8. [get_os_orders] returns [None] and sends nothing; so
    [cancel_all_os_orders] fails on reading [index] off [None], with
    the traffic as it was: no cancel request is ever made. *)
Theorem get_os_orders_returns_None (w : World) :
  get_os_orders w = (Ok None, w) ∧
  cancel_all_os_orders w
  = (Raise (AttributeError "'NoneType' object has no attribute 'index'"),
     w).
Proof. split; reflexivity. Qed.

Lemma price_gt_0_not_le_0 (price : spec_float) :
  price_gt_0 price = true → price_le_0 price = false.
Proof.
  unfold price_gt_0, price_le_0, SFltb, SFleb.
  destruct price as [s|s| |s m e]; simpl; try done; by destruct s.
Qed.

(** A request that requires a hash is posted under a hash key. *)
Lemma send_post_request_hashed {A} (req : APIRequestParameter)
    (k : APIResponse → Result A) (w : World) :
  requires_hash req = Some true →
  posts_hashed (do response <- _send_post_request req true;
                lift (k response))
    req (λ response r, r = k response) w.
Proof.
  intros Hreq.
  unfold posts_hashed, _send_post_request. rewrite Hreq. simpl default.
  unfold get_hash_key, post, lift, hashkey_call, bind.
  cbv beta iota zeta.
  destruct (transport (traffic w) _) as [reply|e]; [|reflexivity].
  cbv beta iota zeta.
  destruct (body_hash reply) as [hash|]; [|reflexivity].
  cbv beta iota zeta. cbn [traffic sent]. split.
  - unfold after, sent. cbn [fst snd traffic account domain_is_real].
    rewrite <- (assoc_L (++)). by destruct (transport _ _).
  - by destruct (transport _ _).
Qed.

Lemma posts_hashed_weaken {A} (m : M A) (req : APIRequestParameter)
    (returns returns' : APIResponse → Result A → Prop) (w : World) :
  (∀ response r, returns response r → returns' response r) →
  posts_hashed m req returns w → posts_hashed m req returns' w.
Proof.
  intros Himp. unfold posts_hashed.
  destruct (transport (traffic w) _) as [reply|e]; [|done].
  destruct (body_hash reply) as [hash|]; [|done].
  intros [Hw Hr]. split; [exact Hw|].
  destruct (transport _ _); [by apply Himp | exact Hr].
Qed.

(** C10. With a market code the code map knows: for a price [<= 0]
    the overseas buy and sell orders raise the [RuntimeError] of the
    price check and leave the client and the traffic as they were;
    for a price [> 0] the check lets the order through, and with a
    transaction id and an account at hand the order, its price
    formatted to two decimals, is posted under a hash key: the
    hash-key request first, the order after it. *)
Theorem os_order_price_guard (market_code ticker : string) (amount : Z)
    (price : spec_float) (m : string) (w : World) :
  to_4 market_code = Ok m →
  (price_le_0 price = true →
   buy_os_stock market_code ticker amount price w
   = (Raise (RuntimeError msg_no_market_order), w) ∧
   sell_os_stock market_code ticker amount price w
   = (Raise (RuntimeError msg_no_market_order), w)) ∧
  (price_gt_0 price = true →
   price_le_0 price = false ∧
   ∀ buy tr a,
     get_order_tr_id_from_market_code m buy (domain_is_real w) = Ok tr →
     account w = Some a →
     ∃ req,
       posts_hashed (_send_os_order ticker market_code amount price buy)
         req (λ response r, r = list_getitem (outputs response) 0) w ∧
       url_path req = "/uapi/overseas-stock/v1/trading/order" ∧
       tr_id req = Some tr ∧
       params req !! "OVRS_ORD_UNPR" = Some (format_2f price)).
Proof.
  intros Hm. split.
  - intros Hle.
    unfold buy_os_stock, sell_os_stock, _send_os_order.
    rewrite Hm, !bind_lift_Ok, Hle. split; reflexivity.
  - intros Hgt. pose proof (price_gt_0_not_le_0 price Hgt) as Hle.
    split; [exact Hle|].
    intros buy tr a Htr Ha. eexists. split; [|split; [|split]].
    + unfold posts_hashed, _send_os_order.
      rewrite Hm, bind_lift_Ok, Hle, bind_domain_is_real, Htr, bind_lift_Ok.
      rewrite !(bind_self_account _ _ _ _ _ Ha).
      apply (send_post_request_hashed _
               (λ response, list_getitem (outputs response) 0) w).
      reflexivity.
    + reflexivity.
    + reflexivity.
    + by vm_compute.
Qed.

Lemma cursor_param_other (query_code other : string) (page : APIResponse) :
  query_code ≠ other →
  cursor_param query_code page !! ("CTX_AREA_FK" +:+ other) = None ∧
  cursor_param query_code page !! ("CTX_AREA_NK" +:+ other) = None.
Proof.
  intros Hne. unfold cursor_param, dict. cbn [foldl fst snd].
  split; rewrite !lookup_insert_ne; try apply lookup_empty;
    cbn [String.append]; intros Heq;
    first [discriminate Heq | injection Heq as Heq; by apply Hne].
Qed.

(** C4 (the defect).  [get_kr_orders] and [get_os_orders_by_flag] both
    call the pager without [is_kr], as [get_kr_stock_balance] does, so
    the pager names the carried cursor alike for the two families,
    whatever value it gives an [is_kr] left out, while the request
    builders name their cursor fields by family.  For the value the
    domestic callers rely on, it is the overseas open-orders query
    whose codes differ; for the other value the domestic ones.  In
    every run of a query whose codes differ, each request after the
    first has its own cursor fields empty and the keys of the page
    before under the names of the other family. *)
Theorem os_orders_cursor_under_domestic_names (q : PagedQuery)
    (init : list APIResponse) (final : APIResponse)
    (frames : list (list DRow)) (fuel : nat) (w : World) :
  plays (length (traffic w)) (script_of_pages (init ++ [final])) →
  ready q w →
  Forall (λ page, has_more (tr_cont page) = true) init →
  has_more (tr_cont final) = false →
  Forall2 (λ page frame, to_dataframe_for q page = Ok frame)
    (init ++ [final]) frames →
  (length (init ++ [final]) ≤ fuel)%nat →
  (default_is_kr = true →
   ∀ code, pager_code (OsOrders code) = "1" ∧
           builder_code (OsOrders code) = "3") ∧
  (default_is_kr = false →
   pager_code KrOrders = "3" ∧ builder_code KrOrders = "1" ∧
   pager_code KrStockBalance = "3" ∧ builder_code KrStockBalance = "1") ∧
  (pager_code q ≠ builder_code q →
   ∃ calls,
     paged_query q fuel w
     = Some (Ok (drop_duplicates row_columns (concat frames)),
             after w calls) ∧
     length calls = S (length init) ∧
     (∀ k page next, init !! k = Some page → calls !! S k = Some next →
        params (call_req next) !! ("CTX_AREA_FK" +:+ builder_code q)
        = Some "" ∧
        params (call_req next) !! ("CTX_AREA_NK" +:+ builder_code q)
        = Some "" ∧
        params (call_req next) !! ("CTX_AREA_FK" +:+ pager_code q)
        = Some (forward_key page) ∧
        params (call_req next) !! ("CTX_AREA_NK" +:+ pager_code q)
        = Some (next_key page)) ∧
     (∀ code, q = OsOrders code →
        filter (λ c, c ∉ ["AMEX"; "NYSE"]) codes_4 = [code] →
        get_os_orders_by_flag fuel w
        = Some (Ok (drop_duplicates row_columns (concat frames)),
                after w calls))).
Proof.
  intros Hplay Hr Hmore Hfinal Hframes Hfuel. split; [|split].
  - intros Hd code. unfold pager_code, builder_code. simpl. by rewrite Hd.
  - intros Hd. unfold pager_code, builder_code. simpl. by rewrite Hd.
  - intros Hne.
    destruct (pager_run q (length (traffic w))
                (script_of_pages (init ++ [final])) init final frames
                fuel w Hplay Hr eq_refl
                (script_of_pages_lookup (init ++ [final]))
                Hmore Hfinal Hframes Hfuel) as (calls & Hrun & Hcalls).
    exists calls. split; [exact Hrun|]. split.
    { apply Forall2_length in Hcalls. by rewrite <- Hcalls, cursors_length. }
    split.
    + intros k page next Hpage Hnext.
      destruct (Forall2_lookup_lr _ _ _ (S k)
                  (Some (cursor_param (pager_code q) page)) next Hcalls)
        as (_ & Hcar & Hown);
        [by apply cursors_lookup_S | exact Hnext |].
      rewrite none_to_empty_dict_Some in Hcar, Hown.
      destruct (cursor_param_lookup (pager_code q) page) as [Hfk Hnk].
      destruct (cursor_param_other (pager_code q) (builder_code q) page Hne)
        as [Hfk' Hnk'].
      split; [|split; [|split]].
      * apply Hown; [by left | exact Hfk'].
      * apply Hown; [right; by left | exact Hnk'].
      * apply Hcar. exact Hfk.
      * apply Hcar. exact Hnk.
    + intros code -> Hcodes. unfold get_os_orders_by_flag.
      rewrite Hcodes. cbn [comprehension]. unfold bindD at 1 2.
      change (send_continuous_query fuel
                (λ eh ep, _get_os_orders_once code eh ep)
                (λ res, to_dataframe_os_orders res) None w)
        with (paged_query (OsOrders code) fuel w).
      rewrite Hrun. unfold bindD, retD, liftD, lift, pd_concat. cbn [concat].
      by rewrite (right_id_L [] (++)).
Qed.

(** ** The rest of the class *)

Lemma country_of_member (m : OverseaInfo.Market) :
  ∃ country rest,
    OverseaInfo.get_country_by_market_code (OverseaInfo.Market_name m)
    = Ok country ∧
    getitem (revise_cancel_tr true) country = Ok ("T" +:+ rest) ∧
    getitem (revise_cancel_tr false) country = Ok ("V" +:+ rest).
Proof. destruct m; eexists _, _; by vm_compute. Qed.

Lemma country_of_stranger (code : string) :
  code ∉ OverseaInfo.Market_get_all →
  OverseaInfo.get_country_by_market_code code = Raise (KeyError code).
Proof.
  intros Hcode. unfold OverseaInfo.get_country_by_market_code.
  assert (OverseaInfo.Market_getitem code = Raise (KeyError code)) as ->;
    [|done].
  unfold OverseaInfo.Market_getitem.
  destruct (list_find _ _) as [[i m]|] eqn:Hfind; [|done].
  apply list_find_Some in Hfind as (Hm & Hname & _).
  exfalso. apply Hcode. rewrite <- Hname.
  apply list_elem_of_fmap_2, list_elem_of_lookup. by exists i.
Qed.

(** X1. The transaction table of the overseas revision covers every
    market: the country of each market member has an entry for the
    real and for the paper domain, and the paper id is the real id
    with its leading [T] turned into [V]. *)
Theorem revise_cancel_tr_covers_markets (m : OverseaInfo.Market) :
  ∃ country rest,
    OverseaInfo.get_country_by_market_code (OverseaInfo.Market_name m)
    = Ok country ∧
    country ∈ OverseaInfo.Country_get_all ∧
    getitem (revise_cancel_tr true) country = Ok ("T" +:+ rest) ∧
    getitem (revise_cancel_tr false) country = Ok ("V" +:+ rest) ∧
    size (revise_cancel_tr true) = length OverseaInfo.Country_get_all ∧
    size (revise_cancel_tr false) = length OverseaInfo.Country_get_all.
Proof.
  destruct m; eexists _, _;
    (split; [by vm_compute|]); (split; [compute_done|]);
    by vm_compute.
Qed.

(** X2. An overseas revision or cancellation for a market code that
    names no market member raises [KeyError] on that code, and one
    whose amount [int()] refuses raises that refusal: in both cases
    nothing is sent, account or not. *)
Theorem os_revise_cancel_rejects (order_number ticker market_code : PyVal)
    (is_cancel : bool) (price : spec_float) (amount : option PyVal)
    (w : World) :
  (str_of market_code ∉ OverseaInfo.Market_get_all →
   _revise_cancel_os_orders order_number ticker market_code is_cancel
     price amount w
   = (Raise (KeyError (str_of market_code)), w)) ∧
  (∀ m v e,
     str_of market_code = OverseaInfo.Market_name m →
     amount = Some v → int_of v = Raise e →
     _revise_cancel_os_orders order_number ticker market_code is_cancel
       price amount w
     = (Raise e, w)).
Proof.
  split.
  - intros Hcode. unfold _revise_cancel_os_orders.
    by rewrite bind_domain_is_real, (country_of_stranger _ Hcode).
  - intros m v e Hm -> Hint. unfold _revise_cancel_os_orders.
    rewrite bind_domain_is_real, Hm.
    destruct (country_of_member m) as (country & rest & -> & Hreal & Hpaper).
    rewrite bind_lift_Ok.
    destruct (domain_is_real w); rewrite ?Hreal, ?Hpaper, bind_lift_Ok, Hint;
      reflexivity.
Qed.

(** The quantity a revision sends: [1] when no amount is given or the
    amount is not positive, the amount otherwise. *)
Lemma os_revise_cancel_posts (order_number ticker market_code : PyVal)
    (is_cancel : bool) (price : spec_float) (amount : option PyVal)
    (m : OverseaInfo.Market) (a : Account) (qty : PyVal) (w : World) :
  account w = Some a →
  str_of market_code = OverseaInfo.Market_name m →
  match amount with
  | None => Ok (PInt 1)
  | Some v =>
      match int_of v with
      | Raise e => Raise e
      | Ok n => Ok (if bool_decide (n ≤ 0) then PInt 1 else v)
      end
  end = Ok qty →
  ∃ req,
    posts_hashed
      (_revise_cancel_os_orders order_number ticker market_code is_cancel
         price amount)
      req (λ response r, r = Ok response) w ∧
    url_path req = "/uapi/overseas-stock/v1/trading/order-rvsecncl" ∧
    params req !! "RVSE_CNCL_DVSN_CD"
    = Some (if is_cancel then "02" else "01") ∧
    params req !! "OVRS_ORD_UNPR"
    = Some (if is_cancel then "0" else str_float price) ∧
    params req !! "ORD_QTY" = Some (str_of qty) ∧
    params req !! "ORGN_ODNO" = Some (str_of order_number) ∧
    params req !! "CANO" = Some (account_code a) ∧
    params req !! "ACNT_PRDT_CD" = Some (product_code a).
Proof.
  intros Ha Hm Hqty.
  destruct (country_of_member m) as (country & rest & Hc & Hreal & Hpaper).
  assert (∃ tr, getitem (revise_cancel_tr (domain_is_real w)) country
                = Ok tr) as [tr Htr].
  { destruct (domain_is_real w); by eexists. }
  eexists. split.
  - unfold posts_hashed, _revise_cancel_os_orders.
    rewrite bind_domain_is_real, Hm, Hc, bind_lift_Ok, Htr, bind_lift_Ok.
    rewrite Hqty, bind_lift_Ok.
    rewrite !(bind_self_account _ _ _ _ _ Ha).
    apply (send_post_request_hashed _ Ok w). reflexivity.
  - split; [reflexivity|]. cbn [params].
    destruct is_cancel; repeat split; by vm_compute.
Qed.

(** X3. With an account and the code of a market member, an overseas
    cancellation is posted under a hash key, marked ["02"] and with
    price ["0"] whatever price the caller holds, and a revision is
    posted under a hash key, marked ["01"] and with the price given:
    the hash-key request for the parameters first, the request itself
    after it when the reply holds a hash.  The quantity is ["1"] when
    no amount is given or the amount is not positive, and the amount
    otherwise. *)
Theorem os_cancel_and_revise_requests (order_number ticker market_code
    : PyVal) (price : spec_float) (amount : option PyVal)
    (m : OverseaInfo.Market) (a : Account) (qty : PyVal) (w : World) :
  account w = Some a →
  str_of market_code = OverseaInfo.Market_name m →
  match amount with
  | None => Ok (PInt 1)
  | Some v =>
      match int_of v with
      | Raise e => Raise e
      | Ok n => Ok (if bool_decide (n ≤ 0) then PInt 1 else v)
      end
  end = Ok qty →
  (∃ req,
     posts_hashed (cancel_os_order order_number ticker market_code amount)
       req (λ _ _, True) w ∧
     url_path req = "/uapi/overseas-stock/v1/trading/order-rvsecncl" ∧
     params req !! "RVSE_CNCL_DVSN_CD" = Some "02" ∧
     params req !! "OVRS_ORD_UNPR" = Some "0" ∧
     params req !! "ORD_QTY" = Some (str_of qty) ∧
     params req !! "ORGN_ODNO" = Some (str_of order_number)) ∧
  (∃ req,
     posts_hashed
       (revise_os_order order_number ticker market_code price amount)
       req (λ _ _, True) w ∧
     url_path req = "/uapi/overseas-stock/v1/trading/order-rvsecncl" ∧
     params req !! "RVSE_CNCL_DVSN_CD" = Some "01" ∧
     params req !! "OVRS_ORD_UNPR" = Some (str_float price) ∧
     params req !! "ORD_QTY" = Some (str_of qty) ∧
     params req !! "ORGN_ODNO" = Some (str_of order_number)).
Proof.
  intros Ha Hm Hqty. split.
  - destruct (os_revise_cancel_posts order_number ticker market_code true
                (S754_zero false) amount m a qty w Ha Hm Hqty)
      as (req & Hposts & Hurl & Hdv & Hprice & Hq & Ho & _).
    exists req. split; [|by repeat split].
    by apply (posts_hashed_weaken _ _ _ _ _ (λ _ _ _, I) Hposts).
  - destruct (os_revise_cancel_posts order_number ticker market_code false
                price amount m a qty w Ha Hm Hqty)
      as (req & Hposts & Hurl & Hdv & Hprice & Hq & Ho & _).
    exists req. split; [|by repeat split].
    by apply (posts_hashed_weaken _ _ _ _ _ (λ _ _ _, I) Hposts).
Qed.

Lemma kr_revise_cancel_posts (order_number : PyVal) (is_cancel : bool)
    (price : Z) (amount : option PyVal) (order_branch : string)
    (a : Account) (qty : PyVal) (all : string) (w : World) :
  account w = Some a →
  match amount with
  | None => Ok (PInt 1, "Y")
  | Some v =>
      match int_of v with
      | Raise e => Raise e
      | Ok n => Ok (if bool_decide (n ≤ 0) then (PInt 1, "Y") else (v, "N"))
      end
  end = Ok (qty, all) →
  ∃ req,
    posts_hashed
      (_revise_cancel_kr_orders order_number is_cancel price amount
         order_branch)
      req (λ response r, r = Ok response) w ∧
    url_path req = "/uapi/domestic-stock/v1/trading/order-rvsecncl" ∧
    params req !! "RVSE_CNCL_DVSN_CD"
    = Some (if is_cancel then "02" else "01") ∧
    params req !! "ORD_UNPR" = Some (pretty price) ∧
    params req !! "ORD_QTY" = Some (str_of qty) ∧
    params req !! "QTY_ALL_ORD_YN" = Some all ∧
    params req !! "ORGN_ODNO" = Some (str_of order_number) ∧
    params req !! "KRX_FWDG_ORD_ORGNO" = Some order_branch.
Proof.
  intros Ha Hqty. eexists. split.
  - unfold posts_hashed, _revise_cancel_kr_orders.
    rewrite Hqty, bind_lift_Ok.
    rewrite !(bind_self_account _ _ _ _ _ Ha).
    apply (send_post_request_hashed _ Ok w). reflexivity.
  - split; [reflexivity|]. cbn [params fst snd].
    destruct is_cancel; repeat split; by vm_compute.
Qed.

(** X4. With an account, a domestic cancellation is posted under a
    hash key, marked ["02"] and with price ["1"], and a revision is
    posted under a hash key, marked ["01"] and with the price given:
    the hash-key request for the parameters first, the request itself
    after it when the reply holds a hash.  Without an amount, or with
    an amount that is not positive, the request asks for the whole
    remaining quantity (quantity ["1"], flag ["Y"]); with a positive
    amount it names that amount (flag ["N"]). *)
Theorem kr_cancel_and_revise_requests (order_number : PyVal) (price : Z)
    (amount : option PyVal) (order_branch : string) (a : Account)
    (w : World) :
  account w = Some a →
  (amount = None ∨ (∃ v n, amount = Some v ∧ int_of v = Ok n ∧ n ≤ 0) →
   (∃ req,
      posts_hashed (cancel_kr_order order_number amount order_branch)
        req (λ _ _, True) w ∧
      url_path req = "/uapi/domestic-stock/v1/trading/order-rvsecncl" ∧
      params req !! "RVSE_CNCL_DVSN_CD" = Some "02" ∧
      params req !! "ORD_UNPR" = Some "1" ∧
      params req !! "ORD_QTY" = Some "1" ∧
      params req !! "QTY_ALL_ORD_YN" = Some "Y") ∧
   (∃ req,
      posts_hashed (revise_kr_order order_number price amount order_branch)
        req (λ _ _, True) w ∧
      url_path req = "/uapi/domestic-stock/v1/trading/order-rvsecncl" ∧
      params req !! "RVSE_CNCL_DVSN_CD" = Some "01" ∧
      params req !! "ORD_UNPR" = Some (pretty price) ∧
      params req !! "ORD_QTY" = Some "1" ∧
      params req !! "QTY_ALL_ORD_YN" = Some "Y")) ∧
  (∀ v n, amount = Some v → int_of v = Ok n → 0 < n →
   (∃ req,
      posts_hashed (cancel_kr_order order_number amount order_branch)
        req (λ _ _, True) w ∧
      url_path req = "/uapi/domestic-stock/v1/trading/order-rvsecncl" ∧
      params req !! "RVSE_CNCL_DVSN_CD" = Some "02" ∧
      params req !! "ORD_UNPR" = Some "1" ∧
      params req !! "ORD_QTY" = Some (str_of v) ∧
      params req !! "QTY_ALL_ORD_YN" = Some "N") ∧
   (∃ req,
      posts_hashed (revise_kr_order order_number price amount order_branch)
        req (λ _ _, True) w ∧
      url_path req = "/uapi/domestic-stock/v1/trading/order-rvsecncl" ∧
      params req !! "RVSE_CNCL_DVSN_CD" = Some "01" ∧
      params req !! "ORD_UNPR" = Some (pretty price) ∧
      params req !! "ORD_QTY" = Some (str_of v) ∧
      params req !! "QTY_ALL_ORD_YN" = Some "N")).
Proof.
  intros Ha. split.
  - intros Hall.
    assert (match amount with
            | None => Ok (PInt 1, "Y")
            | Some v =>
                match int_of v with
                | Raise e => Raise e
                | Ok n =>
                    Ok (if bool_decide (n ≤ 0) then (PInt 1, "Y")
                        else (v, "N"))
                end
            end = Ok (PInt 1, "Y")) as Hqty.
    { destruct Hall as [->|(v & n & -> & -> & Hn)]; [done|].
      by rewrite bool_decide_true. }
    split.
    + destruct (kr_revise_cancel_posts order_number true 1 amount
                  order_branch a (PInt 1) "Y" w Ha Hqty)
        as (req & Hposts & Hurl & Hdv & Hprice & Hq & Hy & _).
      exists req. split; [|by repeat split].
      by apply (posts_hashed_weaken _ _ _ _ _ (λ _ _ _, I) Hposts).
    + destruct (kr_revise_cancel_posts order_number false price amount
                  order_branch a (PInt 1) "Y" w Ha Hqty)
        as (req & Hposts & Hurl & Hdv & Hprice & Hq & Hy & _).
      exists req. split; [|by repeat split].
      by apply (posts_hashed_weaken _ _ _ _ _ (λ _ _ _, I) Hposts).
  - intros v n -> Hint Hn.
    assert (match int_of v with
            | Raise e => Raise e
            | Ok n =>
                Ok (if bool_decide (n ≤ 0) then (PInt 1, "Y") else (v, "N"))
            end = Ok (v, "N")) as Hqty.
    { rewrite Hint. by rewrite bool_decide_false by lia. }
    split.
    + destruct (kr_revise_cancel_posts order_number true 1 (Some v)
                  order_branch a v "N" w Ha Hqty)
        as (req & Hposts & Hurl & Hdv & Hprice & Hq & Hy & _).
      exists req. split; [|by repeat split].
      by apply (posts_hashed_weaken _ _ _ _ _ (λ _ _ _, I) Hposts).
    + destruct (kr_revise_cancel_posts order_number false price (Some v)
                  order_branch a v "N" w Ha Hqty)
        as (req & Hposts & Hurl & Hdv & Hprice & Hq & Hy & _).
      exists req. split; [|by repeat split].
      by apply (posts_hashed_weaken _ _ _ _ _ (λ _ _ _, I) Hposts).
Qed.

(** X5. With an account, a domestic order is posted under a hash
    key, under the buy or the sell transaction id: the hash-key
    request for the parameters first, the order after it when the
    reply holds a hash.  A price that is not positive turns the order
    into a market order (division ["01"], price ["0"]); a positive
    price is sent as a limit order (division ["00"]).  The amount is
    sent as given, whatever it is.  The answer is the first output of
    the response to the order, and [IndexError] when that response has
    no output, the order posted. *)
Theorem kr_order_request (ticker : string) (amount price : Z) (buy : bool)
    (a : Account) (w : World) :
  account w = Some a →
  ∃ req,
    posts_hashed (_send_kr_order ticker amount price buy) req
      (λ response r,
         r = list_getitem (outputs response) 0 ∧
         (outputs response = [] →
          r = Raise (IndexError "list index out of range"))) w ∧
    url_path req = "/uapi/domestic-stock/v1/trading/order-cash" ∧
    tr_id req = Some (if buy then "TTTC0802U" else "TTTC0801U") ∧
    params req !! "PDNO" = Some ticker ∧
    params req !! "ORD_QTY" = Some (pretty amount) ∧
    params req !! "CANO" = Some (account_code a) ∧
    (price ≤ 0 →
     params req !! "ORD_DVSN" = Some "01" ∧
     params req !! "ORD_UNPR" = Some "0") ∧
    (0 < price →
     params req !! "ORD_DVSN" = Some "00" ∧
     params req !! "ORD_UNPR" = Some (pretty price)).
Proof.
  intros Ha. eexists. split.
  - unfold _send_kr_order.
    apply (posts_hashed_weaken _ _
             (λ response r, r = list_getitem (outputs response) 0)).
    { intros response r ->. split; [reflexivity|]. by intros ->. }
    unfold posts_hashed.
    rewrite !(bind_self_account _ _ _ _ _ Ha).
    apply (send_post_request_hashed _
             (λ response, list_getitem (outputs response) 0) w).
    reflexivity.
  - split; [reflexivity|]. split; [reflexivity|].
    cbn [params].
    split; [by vm_compute|]. split; [by vm_compute|].
    split; [by vm_compute|]. split.
    + intros Hle. rewrite !bool_decide_true by done. split; by vm_compute.
    + intros Hlt. rewrite !bool_decide_false by lia. split; by vm_compute.
Qed.

(** X6. The two methods that start from [get_os_orders] never get
    past the [None] it returns.  [cancel_all_os_orders] raises
    [AttributeError] on its index and cancels nothing;
    [revise_os_order_by_current_price], as the class ends up defining
    it, raises [TypeError] on subscripting it.  Neither sends a
    request, with or without an account. *)
Theorem methods_on_get_os_orders_raise (order_id : PyVal) (w : World) :
  cancel_all_os_orders w
  = (Raise (AttributeError "'NoneType' object has no attribute 'index'"),
     w) ∧
  revise_os_order_by_current_price order_id w
  = (Raise (TypeError "'NoneType' object is not subscriptable"), w).
Proof. split; reflexivity. Qed.




(** X14. When the code map lists nothing but AMEX and NYSE (or nothing
    at all), [get_os_orders_by_flag] has no frame to concatenate: it
    raises [ValueError] and sends nothing. *)
Theorem get_os_orders_by_flag_nothing_to_query (fuel : nat) (w : World) :
  Forall (λ code, code ∈ ["AMEX"; "NYSE"]) codes_4 →
  get_os_orders_by_flag fuel w
  = Some (Raise (ValueError "No objects to concatenate"), w).
Proof.
  intros Hcodes. unfold get_os_orders_by_flag.
  assert (filter (λ code, code ∉ ["AMEX"; "NYSE"]) codes_4 = []) as ->;
    [|done].
  induction Hcodes as [|code codes Hcode _ IH]; [done|].
  rewrite filter_cons_False; [exact IH|]. by intros Hn.
Qed.

Lemma cancel_each_kr_posts (a : Account) :
  (∀ log c, call_method c = POST →
            ∃ res hash, transport log c = Ok res ∧ body_hash res = Some hash) →
  ∀ (orders branchs : list PyVal) (w : World),
    account w = Some a →
    ∃ steps : list (HttpCall * HttpCall),
      cancel_each_kr orders branchs w
      = (Ok (), after w (concat ((λ hc, [hc.1; hc.2]) <$> steps))) ∧
      Forall2 (λ ob hc,
                 hc.1 = hashkey_call (params (call_req hc.2)) ∧
                 call_method hc.2 = POST ∧
                 is_Some (call_hashkey hc.2) ∧
                 params (call_req hc.2) !! "ORGN_ODNO" = Some (str_of ob.1) ∧
                 params (call_req hc.2) !! "KRX_FWDG_ORD_ORGNO"
                 = Some (str_of ob.2) ∧
                 params (call_req hc.2) !! "RVSE_CNCL_DVSN_CD" = Some "02" ∧
                 params (call_req hc.2) !! "QTY_ALL_ORD_YN" = Some "Y")
        (zip orders branchs) steps.
Proof.
  intros Hserver orders.
  induction orders as [|order orders IH]; intros branchs w Ha.
  { exists []. split; [by rewrite after_nil | constructor]. }
  destruct branchs as [|branch branchs].
  { exists []. split; [by rewrite after_nil | constructor]. }
  destruct (kr_revise_cancel_posts order true 1 None (str_of branch) a
              (PInt 1) "Y" w Ha eq_refl)
    as (req & Hposts & _ & Hdv & _ & _ & Hall & Hodno & Hbranch).
  unfold posts_hashed in Hposts. cbv zeta in Hposts.
  destruct (Hserver (traffic w) (hashkey_call (params req)) eq_refl)
    as (reply & hash & Hreply & Hhash).
  rewrite Hreply, Hhash in Hposts. destruct Hposts as [Hw Hr].
  destruct (Hserver (traffic w ++ [hashkey_call (params req)])
              (mkCall POST req true (Some hash)) eq_refl)
    as (res & _ & Hres & _).
  rewrite Hres in Hr.
  destruct (IH branchs
              (after w [hashkey_call (params req);
                        mkCall POST req true (Some hash)]) Ha)
    as (steps & Hrest & Hsteps).
  exists ((hashkey_call (params req), mkCall POST req true (Some hash))
          :: steps).
  split.
  - simpl. unfold bind at 1, cancel_kr_order.
    rewrite (surjective_pairing (_revise_cancel_kr_orders _ _ _ _ _ _)).
    rewrite Hw, Hr, Hrest. by rewrite after_after.
  - simpl. constructor; [|exact Hsteps].
    cbn [fst snd call_req call_method call_hashkey].
    split; [reflexivity|]. split; [reflexivity|]. split; [by eexists|].
    by repeat split.
Qed.

(** X8. [cancel_all_kr_orders] on the frame of the open domestic
    orders.  When the frame has no row it has no branch column either,
    and the method raises [KeyError] on it with nothing cancelled.
    Otherwise, with a server that answers every POST with a body that
    holds a hash, it cancels every order, in the order of the frame:
    for each one the hash-key request and then the cancellation under
    that hash, for the whole remaining quantity of that order at that
    order's branch, and nothing else. *)
Theorem cancel_all_kr_orders_cancels_each (fuel : nat) (data : list DRow)
    (a : Account) (w w1 : World) :
  get_kr_orders fuel w = Some (Ok data, w1) →
  account w1 = Some a →
  (data = [] →
   cancel_all_kr_orders fuel w = Some (Raise (KeyError "주문점"), w1)) ∧
  (∀ branchs,
     frame_column (Some data) "주문점" = Ok branchs →
     (∀ log c, call_method c = POST →
               ∃ res hash,
                 transport log c = Ok res ∧ body_hash res = Some hash) →
     ∃ steps : list (HttpCall * HttpCall),
       cancel_all_kr_orders fuel w
       = Some (Ok (), after w1 (concat ((λ hc, [hc.1; hc.2]) <$> steps))) ∧
       length steps = length data ∧
       Forall2 (λ ob hc,
                  hc.1 = hashkey_call (params (call_req hc.2)) ∧
                  call_method hc.2 = POST ∧
                  is_Some (call_hashkey hc.2) ∧
                  params (call_req hc.2) !! "ORGN_ODNO"
                  = Some (str_of ob.1) ∧
                  params (call_req hc.2) !! "KRX_FWDG_ORD_ORGNO"
                  = Some (str_of ob.2) ∧
                  params (call_req hc.2) !! "RVSE_CNCL_DVSN_CD"
                  = Some "02" ∧
                  params (call_req hc.2) !! "QTY_ALL_ORD_YN" = Some "Y")
         (zip (row_index <$> data) branchs) steps).
Proof.
  intros Hquery Ha. split.
  - intros ->. unfold cancel_all_kr_orders, bindD. by rewrite Hquery.
  - intros branchs Hbranchs Hserver.
    destruct (cancel_each_kr_posts a Hserver (row_index <$> data) branchs
                w1 Ha) as (steps & Hrun & Hsteps).
    exists steps. split; [|split; [|exact Hsteps]].
    + unfold cancel_all_kr_orders, bindD. rewrite Hquery.
      unfold liftD. simpl frame_index.
      by rewrite bind_lift_Ok, Hbranchs, bind_lift_Ok, Hrun.
    + apply Forall2_length in Hsteps. rewrite <- Hsteps.
      unfold frame_column in Hbranchs.
      destruct data as [|row data]; [discriminate Hbranchs|].
      destruct (mapM (row_cell "주문점") (row :: data)) as [cells|] eqn:Hcells;
        [|discriminate Hbranchs].
      injection Hbranchs as <-. apply length_mapM in Hcells.
      rewrite length_zip_with, length_fmap. lia.
Qed.

(** X9. [get_kr_ohlcv] makes exactly one request whatever the server
    answers: a GET that asks the HTTP layer not to raise, for the
    ticker given and for the period [D], [W] or [M] when the time unit,
    in upper case, is one of their long names, and for the time unit
    in upper case otherwise.  On an ok response whose first output is
    a non-empty array it returns that array reshaped. *)
Theorem get_kr_ohlcv_one_request (ticker time_unit : string) (w : World) :
  ∃ c,
    (get_kr_ohlcv ticker time_unit w).2 = after w [c] ∧
    call_method c = GET ∧
    call_raise_flag c = false ∧
    params (call_req c) !! "FID_INPUT_ISCD" = Some ticker ∧
    (∃ period,
       params (call_req c) !! "FID_PERIOD_DIV_CODE" = Some period ∧
       (str_upper time_unit ∈ ["DAYS"; "DAY"] → period = "D") ∧
       (str_upper time_unit ∈ ["WEEKS"; "WEEK"] → period = "W") ∧
       (str_upper time_unit ∈ ["MONTHS"; "MONTH"] → period = "M") ∧
       (str_upper time_unit
          ∉ ["DAYS"; "DAY"; "WEEKS"; "WEEK"; "MONTHS"; "MONTH"] →
        period = str_upper time_unit)) ∧
    (∀ res row rows rest,
       transport (traffic w) c = Ok res →
       is_ok res = true →
       outputs res = JArr (row :: rows) :: rest →
       (get_kr_ohlcv ticker time_unit w).1
       = reshape OhlcvFrame (row :: rows)).
Proof.
  unfold get_kr_ohlcv, _get_kr_history.
  set (period :=
         if bool_decide (str_upper time_unit ∈ ["DAYS"; "DAY"]) then "D"
         else if bool_decide (str_upper time_unit ∈ ["WEEKS"; "WEEK"])
              then "W"
         else if bool_decide (str_upper time_unit ∈ ["MONTHS"; "MONTH"])
              then "M"
         else str_upper time_unit).
  unfold bind at 1, _send_get_request.
  match goal with
  | |- context [transport (traffic w) ?c] => exists c
  end.
  split; [|split; [reflexivity|split; [reflexivity|]]].
  - destruct (transport _ _) as [res|e]; [|reflexivity].
    destruct (negb (is_ok res)); [reflexivity|].
    case_bool_decide; [reflexivity|].
    unfold bind, lift, ret.
    destruct (list_getitem (outputs res) 0) as [out0|e]; [|reflexivity].
    case_bool_decide; [reflexivity|].
    by destruct (pd_DataFrame out0).
  - cbn [call_req params]. split; [by vm_compute|]. split.
    + exists period. split.
      { clearbody period. by vm_compute. }
      subst period. repeat split.
      * intros Hd. by rewrite bool_decide_true.
      * intros Hw. case_bool_decide as Hd; [|by rewrite bool_decide_true].
        exfalso. clear -Hd Hw.
        set_unfold. destruct Hd as [Hd|[Hd|[]]], Hw as [Hw|[Hw|[]]];
          rewrite Hd in Hw; discriminate Hw.
      * intros Hm. case_bool_decide as Hd.
        { exfalso. clear -Hd Hm.
          set_unfold. destruct Hd as [Hd|[Hd|[]]], Hm as [Hm|[Hm|[]]];
            rewrite Hd in Hm; discriminate Hm. }
        case_bool_decide as Hw; [|by rewrite bool_decide_true].
        exfalso. clear -Hw Hm.
        set_unfold. destruct Hw as [Hw|[Hw|[]]], Hm as [Hm|[Hm|[]]];
          rewrite Hw in Hm; discriminate Hm.
      * intros Hn. rewrite !bool_decide_false; [done|..];
          intros Hin; apply Hn; clear -Hin; set_unfold; tauto.
    + intros res row rows rest Hres Hok Hout.
      unfold bind at 1. rewrite Hres, Hok, Hout. reflexivity.
Qed.

Lemma price_info_read (info_of : M JVal) (key : string) (conv : string → Result Z)
    (c : HttpCall) (w : World) :
  info_of w
  = (match transport (traffic w) c with
     | Ok res => list_getitem (outputs res) 0
     | Raise e => Raise e
     end, after w [c]) →
  (do info <- info_of;
   do price <- lift (jval_getitem info key);
   lift (conv price)) w
  = (match transport (traffic w) c with
     | Raise e => Raise e
     | Ok res =>
         match list_getitem (outputs res) 0 with
         | Raise e => Raise e
         | Ok info =>
             match jval_getitem info key with
             | Raise e => Raise e
             | Ok price => conv price
             end
         end
     end, after w [c]).
Proof.
  intros Hinfo. unfold bind at 1. rewrite Hinfo.
  destruct (transport (traffic w) c) as [res|e]; [|reflexivity].
  destruct (list_getitem (outputs res) 0) as [info|e]; [|reflexivity].
  unfold bind, lift.
  by destruct (jval_getitem info key).
Qed.

(** X10. The three domestic price getters send the same single GET
    for the ticker and differ in the key they read off the first
    output of the response: [stck_prpr], [stck_mxpr], [stck_llam].  On
    an object that lacks the key they raise [KeyError] on it, on a
    response without output [IndexError], and an exception of the HTTP
    layer passes through; in each case the request has been made. *)
Theorem kr_price_getters (ticker : string) (w : World) :
  ∃ c,
    call_method c = GET ∧
    params (call_req c) !! "FID_INPUT_ISCD" = Some ticker ∧
    (∀ key getter,
       (key, getter) ∈ [("stck_prpr", get_kr_current_price);
                        ("stck_mxpr", get_kr_max_price);
                        ("stck_llam", get_kr_min_price)] →
       (getter ticker w).2 = after w [c] ∧
       (∀ e, transport (traffic w) c = Raise e →
             (getter ticker w).1 = Raise e) ∧
       (∀ res, transport (traffic w) c = Ok res → outputs res = [] →
               (getter ticker w).1
               = Raise (IndexError "list index out of range")) ∧
       (∀ res info rest,
          transport (traffic w) c = Ok res →
          outputs res = JObj info :: rest →
          (getter ticker w).1
          = match info !! key with
            | Some price => py_int price
            | None => Raise (KeyError key)
            end)).
Proof.
  assert (∃ c, call_method c = GET ∧
               params (call_req c) !! "FID_INPUT_ISCD" = Some ticker ∧
               _get_kr_stock_current_price_info ticker w
               = (match transport (traffic w) c with
                  | Ok res => list_getitem (outputs res) 0
                  | Raise e => Raise e
                  end, after w [c])) as (c & Hget & Hticker & Hinfo).
  { unfold _get_kr_stock_current_price_info, bind, _send_get_request, lift.
    match goal with
    | |- context [transport (traffic w) ?c] => exists c
    end.
    split; [reflexivity|]. split; [by vm_compute|].
    by destruct (transport _ _). }
  exists c. split; [exact Hget|]. split; [exact Hticker|].
  intros key getter Hin.
  assert (getter ticker w
          = (match transport (traffic w) c with
             | Raise e => Raise e
             | Ok res =>
                 match list_getitem (outputs res) 0 with
                 | Raise e => Raise e
                 | Ok info =>
                     match jval_getitem info key with
                     | Raise e => Raise e
                     | Ok price => py_int price
                     end
                 end
             end, after w [c])) as ->.
  { apply elem_of_cons in Hin as [[= -> ->]|Hin];
      [by apply price_info_read|].
    apply elem_of_cons in Hin as [[= -> ->]|Hin];
      [by apply price_info_read|].
    apply list_elem_of_singleton in Hin as [= -> ->].
    by apply price_info_read. }
  split; [reflexivity|]. split; [|split].
  - by intros e ->.
  - by intros res -> ->.
  - intros res info rest -> ->. simpl. unfold getitem.
    by destruct (info !! key).
Qed.

(** X11. On a paper-trading domain [get_os_deposit] is the domestic
    deposit: it makes the request of [get_kr_deposit] and returns what
    that method returns, or raises what it raises. *)
Theorem get_os_deposit_on_paper_domain (w : World) :
  domain_is_real w = false →
  get_os_deposit w
  = match get_kr_deposit w with
    | (Ok amount, w') => (Ok (inr amount), w')
    | (Raise e, w') => (Raise e, w')
    end.
Proof.
  intros Hpaper. unfold get_os_deposit, get_kr_deposit.
  rewrite bind_domain_is_real, Hpaper. unfold bind, lift, ret, raise.
  destruct (_get_kr_total_balance None None w) as [[res|e] w1];
    [|reflexivity].
  destruct (list_getitem (outputs res) 1) as [[o|rows]|e]; try reflexivity.
  destruct (list_getitem rows 0) as [row|e]; [|reflexivity].
  destruct (getitem row "prvs_rcdl_excc_amt") as [amt|e]; [|reflexivity].
  by destruct (py_int amt).
Qed.

(** X13. For the overseas family [_get_inquire_psamount] replaces the
    [extra_param] of its caller by a fixed dictionary, and
    [_get_inquire_present_balance] does so in every case: with an
    account each sends one GET that is the same whatever the caller
    passes as [extra_param], asking about NASD and NDAQ at price ["0"]
    in the one case and with the four fixed fields in the other. *)
Theorem inquiries_ignore_extra_param (extra_header : option Json)
    (a : Account) (w : World) :
  account w = Some a →
  ∃ c c',
    (∀ ep, _get_inquire_psamount false extra_header ep w
           = (transport (traffic w) c, after w [c])) ∧
    (∀ ep, _get_inquire_present_balance extra_header ep w
           = (transport (traffic w) c', after w [c'])) ∧
    call_method c = GET ∧
    params (call_req c) !! "OVRS_EXCG_CD" = Some "NASD" ∧
    params (call_req c) !! "OVRS_ORD_UNPR" = Some "0" ∧
    params (call_req c) !! "ITEM_CD" = Some "NDAQ" ∧
    params (call_req c) !! "CANO" = Some (account_code a) ∧
    call_method c' = GET ∧
    params (call_req c') !! "WCRC_FRCR_DVSN_CD" = Some "01" ∧
    params (call_req c') !! "NATN_CD" = Some "000" ∧
    params (call_req c') !! "TR_MKET_CD" = Some "00" ∧
    params (call_req c') !! "INQR_DVSN_CD" = Some "00" ∧
    params (call_req c') !! "CANO" = Some (account_code a).
Proof.
  intros Ha. unfold _get_inquire_psamount, _get_inquire_present_balance.
  eexists _, _. split; [|split].
  - intros ep. rewrite !(bind_self_account _ _ _ _ _ Ha).
    unfold _send_get_request. reflexivity.
  - intros ep. rewrite bind_domain_is_real.
    rewrite !(bind_self_account _ _ _ _ _ Ha).
    unfold _send_get_request. reflexivity.
  - cbn [call_method call_req params].
    repeat split; by vm_compute.
Qed.

Lemma psamount_fetch (a : Account) (w : World) :
  account w = Some a →
  ∃ c, _get_inquire_psamount false None None w
       = (transport (traffic w) c, after w [c]) ∧
       call_method c = GET.
Proof.
  intros Ha. unfold _get_inquire_psamount.
  rewrite !(bind_self_account _ _ _ _ _ Ha). unfold _send_get_request.
  by eexists.
Qed.

Lemma psamount_unconfigured (w : World) :
  account w = None →
  ∃ e, _get_inquire_psamount false None None w = (Raise e, w).
Proof.
  intros Ha. unfold _get_inquire_psamount.
  rewrite (bind_self_account_None _ _ _ _ Ha). by eexists.
Qed.

Lemma kr_deposit_one_request (a : Account) (w : World) :
  account w = Some a →
  ∃ c, (get_kr_deposit w).2 = after w [c] ∧ call_method c = GET.
Proof.
  intros Ha.
  assert (∃ c, _get_kr_total_balance None None w
               = (transport (traffic w) c, after w [c]) ∧
               call_method c = GET) as (c & Hfetch & Hget).
  { unfold _get_kr_total_balance, _get_total_balance.
    rewrite !(bind_self_account _ _ _ _ _ Ha). unfold _send_get_request.
    by eexists. }
  exists c. split; [|exact Hget].
  unfold get_kr_deposit, bind, lift, ret, raise.
  rewrite Hfetch.
  destruct (transport (traffic w) c) as [res|e]; [|reflexivity].
  destruct (list_getitem (outputs res) 1) as [[o|rows]|e]; try reflexivity.
  destruct (list_getitem rows 0) as [row|e]; [|reflexivity].
  by destruct (getitem row "prvs_rcdl_excc_amt").
Qed.

(** X12. On a paper-trading domain [get_is_integrate] answers [None]
    and sends nothing.  On a real domain every answer it gives has
    cost exactly two GET requests, the second one for the domestic
    deposit, and the answer [True] is given only on a response whose
    [frcr_ord_psbl_amt1] reads as a float other than zero. *)
Theorem get_is_integrate_requests (w : World) :
  (domain_is_real w = false → get_is_integrate w = (Ok None, w)) ∧
  (domain_is_real w = true →
   ∀ answer w', get_is_integrate w = (Ok answer, w') →
     ∃ c1 c2,
       w' = after w [c1; c2] ∧
       call_method c1 = GET ∧ call_method c2 = GET ∧
       (answer = Some true →
        ∃ res amount frcr,
          transport (traffic w) c1 = Ok res ∧
          jval_getitem (body_output res) "frcr_ord_psbl_amt1" = Ok amount ∧
          py_float amount = Ok frcr ∧
          float_truthy frcr = true)).
Proof.
  split.
  - intros Hpaper. unfold get_is_integrate.
    by rewrite bind_domain_is_real, Hpaper.
  - intros Hreal answer w' Hrun. unfold get_is_integrate in Hrun.
    rewrite bind_domain_is_real, Hreal in Hrun.
    destruct (account w) as [a|] eqn:Ha.
    2:{ destruct (psamount_unconfigured w Ha) as [e He].
        rewrite (bind_Raise _ _ e w w He) in Hrun. discriminate Hrun. }
    destruct (psamount_fetch a w Ha) as (c1 & Hps & Hget1).
    destruct (kr_deposit_one_request a (after w [c1]) Ha)
      as (c2 & Hdep & Hget2).
    exists c1, c2.
    unfold bind, lift, ret in Hrun. rewrite Hps in Hrun.
    destruct (transport (traffic w) c1) as [res|e] eqn:Hres;
      [|discriminate Hrun].
    destruct (jval_getitem (body_output res) "ovrs_ord_psbl_amt")
      as [s1|e]; [|discriminate Hrun].
    destruct (py_float s1) as [ovrs|e]; [|discriminate Hrun].
    destruct (jval_getitem (body_output res) "frcr_ord_psbl_amt1")
      as [s2|e] eqn:Hs2; [|discriminate Hrun].
    destruct (py_float s2) as [frcr|e] eqn:Hfrcr; [|discriminate Hrun].
    destruct (get_kr_deposit (after w [c1])) as [[deposit|e] w2] eqn:Hkr;
      [|discriminate Hrun].
    simpl in Hdep. subst w2. rewrite after_after in Hrun. simpl in Hrun.
    split; [|split; [exact Hget1|split; [exact Hget2|]]].
    + destruct (float_truthy frcr); [by injection Hrun|].
      destruct (negb (float_truthy ovrs) && bool_decide (deposit = 0));
        by injection Hrun.
    + intros ->. exists res, s2, frcr. repeat split; try done.
      destruct (float_truthy frcr); [done|].
      destruct (negb (float_truthy ovrs) && bool_decide (deposit = 0));
        discriminate Hrun.
Qed.

(** X15. [get_os_current_price] sends one GET that names the exchange
    and the symbol in upper case, and returns the [last] field of the
    first output of the response read as a float; without that field
    it raises [KeyError], the request made. *)
Theorem os_price_getter (ticker market_code : string) (w : World) :
  ∃ c,
    (get_os_current_price ticker market_code w).2 = after w [c] ∧
    call_method c = GET ∧
    params (call_req c) !! "EXCD" = Some (str_upper market_code) ∧
    params (call_req c) !! "SYMB" = Some (str_upper ticker) ∧
    (∀ res info rest,
       transport (traffic w) c = Ok res →
       outputs res = JObj info :: rest →
       (get_os_current_price ticker market_code w).1
       = match info !! "last" with
         | Some price => py_float price
         | None => Raise (KeyError "last")
         end).
Proof.
  unfold get_os_current_price, _get_os_stock_current_price_info.
  unfold bind, _send_get_request, lift.
  match goal with
  | |- context [transport (traffic w) ?c] => exists c
  end.
  split; [|split; [reflexivity|]].
  - destruct (transport _ _) as [res|e]; [|reflexivity].
    destruct (list_getitem (outputs res) 0) as [info|e]; [|reflexivity].
    by destruct (jval_getitem info "last").
  - cbn [call_req params].
    split; [by vm_compute|]. split; [by vm_compute|].
    intros res info rest -> ->. simpl. unfold getitem.
    by destruct (info !! "last").
Qed.

(** X17. With an account, [get_kr_buyable_cash] sends one GET with
    the codes of the account and an order price of ["0"], and returns
    the [ord_psbl_cash] field of the first output read as an integer;
    when the response has no output, or its first output lacks the
    field, it raises [IndexError] or [KeyError] with the request
    made. *)
Theorem kr_buyable_cash_request (a : Account) (w : World) :
  account w = Some a →
  ∃ c,
    (get_kr_buyable_cash w).2 = after w [c] ∧
    call_method c = GET ∧
    params (call_req c) !! "CANO" = Some (account_code a) ∧
    params (call_req c) !! "ACNT_PRDT_CD" = Some (product_code a) ∧
    params (call_req c) !! "ORD_UNPR" = Some "0" ∧
    (∀ res, transport (traffic w) c = Ok res → outputs res = [] →
            (get_kr_buyable_cash w).1
            = Raise (IndexError "list index out of range")) ∧
    (∀ res info rest,
       transport (traffic w) c = Ok res →
       outputs res = JObj info :: rest →
       (get_kr_buyable_cash w).1
       = match info !! "ord_psbl_cash" with
         | Some cash => py_int cash
         | None => Raise (KeyError "ord_psbl_cash")
         end).
Proof.
  intros Ha.
  unfold get_kr_buyable_cash, bind, self_account, _send_get_request, lift.
  repeat (rewrite Ha; cbv beta iota zeta).
  match goal with
  | |- context [transport (traffic w) ?c] => exists c
  end.
  split; [|split; [reflexivity|]].
  - destruct (transport _ _) as [res|e]; [|reflexivity].
    destruct (list_getitem (outputs res) 0) as [info|e]; [|reflexivity].
    by destruct (jval_getitem info "ord_psbl_cash").
  - cbn [call_req params].
    split; [by vm_compute|]. split; [by vm_compute|].
    split; [by vm_compute|]. split.
    + by intros res -> ->.
    + intros res info rest -> ->. simpl. unfold getitem.
      by destruct (info !! "ord_psbl_cash").
Qed.

End Api.

(** ** The market table *)

Lemma Market_getitem_name (m : OverseaInfo.Market) :
  OverseaInfo.Market_getitem (OverseaInfo.Market_name m) = Ok m.
Proof. by destruct m. Qed.

Lemma Market_getitem_unknown (code : string) :
  code ∉ OverseaInfo.Market_get_all →
  OverseaInfo.Market_getitem code = Raise (KeyError code).
Proof.
  intros Hcode. unfold OverseaInfo.Market_getitem.
  destruct (list_find _ _) as [[i m]|] eqn:Hfind; [|done].
  apply list_find_Some in Hfind as (Hm & Hname & _).
  exfalso. apply Hcode. rewrite <- Hname.
  apply list_elem_of_fmap_2, list_elem_of_lookup. by exists i.
Qed.

(** C9. For the name of a market member the function returns the name
    of the country member whose value is the market's value divided by
    ten, rounding down: the table below.  For any other string it
    raises [KeyError]. *)
Theorem get_country_by_market_code_table (code : string) :
  (∀ m, code = OverseaInfo.Market_name m →
     ∃ c, OverseaInfo.Country_value c = OverseaInfo.Market_value m / 10 ∧
          OverseaInfo.get_country_by_market_code code
          = Ok (OverseaInfo.Country_name c)) ∧
  (code ∉ OverseaInfo.Market_get_all →
   OverseaInfo.get_country_by_market_code code = Raise (KeyError code)) ∧
  OverseaInfo.get_country_by_market_code <$>
    ["NASD"; "NYSE"; "AMEX"; "SEHK"; "TKSE"; "SHAA"; "SZAA"; "HASE"; "VNSE"]
  = Ok <$> ["USA"; "USA"; "USA"; "HK"; "JP"; "CN_SHA"; "CN_SZX"; "VN"; "VN"].
Proof.
  split; [|split].
  - intros m ->. unfold OverseaInfo.get_country_by_market_code.
    rewrite Market_getitem_name.
    destruct m; eexists; (split; [|reflexivity]);
      match goal with
      | |- OverseaInfo.Country_value ?c = _ => by vm_compute
      end.
  - intros Hcode. unfold OverseaInfo.get_country_by_market_code.
    by rewrite (Market_getitem_unknown code Hcode).
  - by vm_compute.
Qed.

(** X16. The two enumerations have no aliases: names and values are
    pairwise distinct, so [Market[name]] and [Country(value)] find the
    member they are asked for and no other, and [get_all] lists each
    member once. *)
Theorem market_and_country_round_trips :
  (∀ m, OverseaInfo.Market_getitem (OverseaInfo.Market_name m) = Ok m) ∧
  (∀ code m, OverseaInfo.Market_getitem code = Ok m →
             OverseaInfo.Market_name m = code) ∧
  (∀ c, OverseaInfo.Country_call (OverseaInfo.Country_value c) = Ok c) ∧
  (∀ v c, OverseaInfo.Country_call v = Ok c →
          OverseaInfo.Country_value c = v) ∧
  NoDup OverseaInfo.Market_get_all ∧
  NoDup (OverseaInfo.Market_value <$> OverseaInfo.Market_members) ∧
  NoDup OverseaInfo.Country_get_all ∧
  NoDup (OverseaInfo.Country_value <$> OverseaInfo.Country_members).
Proof.
  split; [exact Market_getitem_name|]. split.
  { intros code m. unfold OverseaInfo.Market_getitem.
    destruct (list_find _ _) as [[i m']|] eqn:Hfind; [|discriminate].
    intros [= <-]. by apply list_find_Some in Hfind as (_ & Hname & _). }
  split; [by intros []|]. split.
  { intros v c. unfold OverseaInfo.Country_call.
    destruct (list_find _ _) as [[i c']|] eqn:Hfind; [|discriminate].
    intros [= <-]. by apply list_find_Some in Hfind as (_ & Hvalue & _). }
  repeat split; compute_done.
Qed.

(** ** The claims on the synthetic server *)

Lemma example_server_plays :
  plays example_server 0 (script_of_pages example_pages).
Proof.
  intros log c _. unfold example_server, example_transport.
  by rewrite Nat.sub_0_r.
Defined.

Lemma example_world_ready (q : PagedQuery) :
  (∀ market_code, q ≠ OsStockBalance market_code) →
  ready example_known example_known q example_world.
Proof.
  intros _. split; [by eexists|]. destruct q; try done; by eexists.
Defined.



Lemma cursor_carried_verbatim_witness :
  ∃ first second,
    paged_query example_server example_reshape example_columns
      example_known example_known "20261102" "20261103" true
      KrStockBalance 2 example_world
    = Some (Ok ["A"; "B"; "C"], after example_world [first; second]) ∧
    params (call_req first) !! "CTX_AREA_FK1" = Some "" ∧
    params (call_req first) !! "CTX_AREA_NK1" = Some "" ∧
    params (call_req second) !! "CTX_AREA_FK1" = Some "X" ∧
    params (call_req second) !! "CTX_AREA_NK1" = Some "Y".
Proof.
  destruct (cursor_carried_verbatim example_server example_reshape
              example_columns
              example_known example_known "20261102" "20261103" true
              KrStockBalance [example_first] example_last example_frames
              2 example_world)
    as (calls & Hrun & Hlen & _ & Hfirst & Hnext).
  - exact example_server_plays.
  - apply example_world_ready. discriminate.
  - repeat constructor.
  - reflexivity.
  - repeat constructor.
  - simpl. lia.
  - destruct calls as [|first [|second [|third calls]]]; try discriminate Hlen.
    exists first, second. split; [exact Hrun|].
    destruct (Hnext 0%nat example_first second eq_refl eq_refl) as [Hfk Hnk].
    split; [|split; [|split; [exact Hfk | exact Hnk]]].
    + apply (Hfirst first eq_refl). by left.
    + apply (Hfirst first eq_refl). right. by left.
Defined.

Lemma pager_stops_on_terminal_flag_witness :
  (∃ fuel r calls,
     paged_query example_server example_reshape example_columns
       example_known example_known "20261102" "20261103" true
       KrOrderHistory fuel example_world
     = Some (r, after example_world calls)) ∧
  (∀ fuel,
     paged_query (example_transport example_endless) example_reshape
       example_columns
       example_known example_known "20261102" "20261103" true
       KrOrderHistory fuel example_world
     = None).
Proof.
  split.
  - destruct (pager_stops_on_terminal_flag example_server example_reshape
                example_columns
                example_known example_known "20261102" "20261103" true
                KrOrderHistory (script_of_pages example_pages) example_world)
      as (_ & Hreturns & _).
    + exact example_server_plays.
    + apply example_world_ready. discriminate.
    + apply Hreturns. by exists 1%nat, example_last.
  - destruct (pager_stops_on_terminal_flag
                (example_transport example_endless) example_reshape
                example_columns
                example_known example_known "20261102" "20261103" true
                KrOrderHistory example_endless example_world)
      as (_ & _ & Hnever).
    + intros log c _. unfold example_transport. by rewrite Nat.sub_0_r.
    + apply example_world_ready. discriminate.
    + apply Hnever. intros n. by exists (example_page "F" "X" "Y" ["A"]), ["A"].
Defined.





Lemma transport_error_aborts_witness :
  ∃ calls,
    paged_query (example_transport example_failing) example_reshape
      example_columns
      example_known example_known "20261102" "20261103" true
      OsOrderHistory 2 example_world
    = Some (Raise (TransportError "connection reset"),
            after example_world calls) ∧
    length calls = 2%nat.
Proof.
  destruct (transport_error_aborts (example_transport example_failing)
              example_reshape example_columns example_known example_known
              "20261102" "20261103" true OsOrderHistory example_failing
              [example_first] (TransportError "connection reset")
              [["A"; "B"]] 2 example_world)
    as (calls & Hrun & Hlen & _).
  - intros log c _. unfold example_transport. by rewrite Nat.sub_0_r.
  - apply example_world_ready. discriminate.
  - intros [|i] page Hi; [|discriminate Hi]. by injection Hi as <-.
  - reflexivity.
  - repeat constructor.
  - repeat constructor.
  - simpl. lia.
  - exists calls. split; [exact Hrun | exact Hlen].
Defined.

Lemma get_country_by_market_code_table_witness :
  OverseaInfo.get_country_by_market_code "KOSPI" = Raise (KeyError "KOSPI") ∧
  ∃ c, OverseaInfo.Country_value c = 5 ∧
       OverseaInfo.get_country_by_market_code "HASE"
       = Ok (OverseaInfo.Country_name c).
Proof.
  destruct (get_country_by_market_code_table "KOSPI") as (_ & Hunknown & _).
  destruct (get_country_by_market_code_table "HASE") as (Hknown & _ & _).
  split.
  - apply Hunknown. compute_done.
  - apply (Hknown OverseaInfo.HASE). reflexivity.
Defined.

Lemma os_order_price_guard_witness :
  buy_os_stock example_exchange (λ _, "0.00") (λ _ _ _, Ok "TTTT1002U")
    example_known "NASD" "AAPL" 1 (S754_zero false) example_world
  = (Raise (RuntimeError msg_no_market_order), example_world) ∧
  ∃ req,
    posts_hashed example_exchange
      (_send_os_order example_exchange (λ _, "1.00")
         (λ _ _ _, Ok "TTTT1002U") example_known "AAPL" "NASD" 1
         (S754_finite false 1 0) true)
      req (λ response r, r = list_getitem (outputs response) 0)
      example_world ∧
    params req !! "OVRS_ORD_UNPR" = Some "1.00".
Proof.
  destruct (os_order_price_guard example_exchange (λ _, "0.00")
              (λ _ _ _, Ok "TTTT1002U") example_known "NASD" "AAPL" 1
              (S754_zero false) "NASD" example_world eq_refl)
    as [Hle _].
  destruct (os_order_price_guard example_exchange (λ _, "1.00")
              (λ _ _ _, Ok "TTTT1002U") example_known "NASD" "AAPL" 1
              (S754_finite false 1 0) "NASD" example_world eq_refl)
    as [_ Hgt].
  split.
  - apply Hle. reflexivity.
  - destruct Hgt as [_ Hposts]; [reflexivity|].
    destruct (Hposts true "TTTT1002U" example_account eq_refl eq_refl)
      as (req & Hreq & _ & _ & Hprice).
    exists req. split; [exact Hreq | exact Hprice].
Defined.

Lemma os_orders_cursor_under_domestic_names_witness :
  ∃ first second,
    get_os_orders_by_flag
      (example_transport (script_of_pages example_order_pages))
      example_orders_reshape example_columns example_known ["NASD"] true 2
      example_world
    = Some (Ok [], after example_world [first; second]) ∧
    params (call_req second) !! "CTX_AREA_FK3" = Some "" ∧
    params (call_req second) !! "CTX_AREA_NK3" = Some "" ∧
    params (call_req second) !! "CTX_AREA_FK1" = Some "X" ∧
    params (call_req second) !! "CTX_AREA_NK1" = Some "Y".
Proof.
  destruct (os_orders_cursor_under_domestic_names
              (example_transport (script_of_pages example_order_pages))
              example_orders_reshape example_columns example_known
              example_known ["NASD"] "20261102" "20261103" true
              (OsOrders "NASD") [example_orders_page "F" "X" "Y" ["1"; "2"]]
              (example_orders_page "D" "" "" ["2"; "3"]) [[]; []] 2
              example_world)
    as (_ & _ & Hrun).
  - intros log c _. unfold example_transport. by rewrite Nat.sub_0_r.
  - apply example_world_ready. discriminate.
  - repeat constructor.
  - reflexivity.
  - repeat constructor.
  - simpl. lia.
  - destruct Hrun as (calls & _ & Hlen & Hnext & Hflag); [discriminate|].
    destruct calls as [|first [|second [|third calls]]];
      try discriminate Hlen.
    exists first, second.
    destruct (Hnext 0%nat (example_orders_page "F" "X" "Y" ["1"; "2"])
                second eq_refl eq_refl) as (Hfk3 & Hnk3 & Hfk1 & Hnk1).
    split; [|split; [exact Hfk3|split; [exact Hnk3|split;
      [exact Hfk1 | exact Hnk1]]]].
    apply (Hflag "NASD" eq_refl). by vm_compute.
Defined.

(** ** The rest of the class on the synthetic server *)

Lemma os_revise_cancel_rejects_witness :
  _revise_cancel_os_orders example_server example_int (λ _, "0.0")
    (PStr "0030") (PStr "AAPL") (PStr "KOSPI") true (S754_zero false) None
    example_world
  = (Raise (KeyError "KOSPI"), example_world) ∧
  _revise_cancel_os_orders example_server example_int (λ _, "0.0")
    (PStr "0030") (PStr "AAPL") (PStr "NASD") false (S754_zero false)
    (Some (PStr "ten")) example_world
  = (Raise (ValueError "ten"), example_world).
Proof.
  destruct (os_revise_cancel_rejects example_server example_int (λ _, "0.0")
              (PStr "0030") (PStr "AAPL") (PStr "KOSPI") true
              (S754_zero false) None example_world) as [Hstranger _].
  destruct (os_revise_cancel_rejects example_server example_int (λ _, "0.0")
              (PStr "0030") (PStr "AAPL") (PStr "NASD") false
              (S754_zero false) (Some (PStr "ten")) example_world)
    as [_ Hamount].
  split.
  - apply Hstranger. compute_done.
  - apply (Hamount OverseaInfo.NASD (PStr "ten")); reflexivity.
Defined.

Lemma os_cancel_and_revise_requests_witness :
  (∃ req,
     posts_hashed example_exchange
       (cancel_os_order example_exchange example_int (λ _, "189.5")
          (PStr "0030") (PStr "AAPL") (PStr "NASD") (Some (PInt 0)))
       req (λ _ _, True) example_world ∧
     params req !! "ORD_QTY" = Some "1" ∧
     params req !! "OVRS_ORD_UNPR" = Some "0") ∧
  (∃ req,
     posts_hashed example_exchange
       (revise_os_order example_exchange example_int (λ _, "189.5")
          (PStr "0030") (PStr "AAPL") (PStr "NASD") (S754_finite false 1 0)
          (Some (PInt 0)))
       req (λ _ _, True) example_world ∧
     params req !! "ORD_QTY" = Some "1" ∧
     params req !! "OVRS_ORD_UNPR" = Some "189.5").
Proof.
  destruct (os_cancel_and_revise_requests example_exchange example_int
              (λ _, "189.5") (PStr "0030") (PStr "AAPL") (PStr "NASD")
              (S754_finite false 1 0) (Some (PInt 0)) OverseaInfo.NASD
              example_account (PInt 1) example_world
              eq_refl eq_refl eq_refl)
    as [(req & Hposts & _ & _ & Hprice & Hqty & _)
        (req' & Hposts' & _ & _ & Hprice' & Hqty' & _)].
  split.
  - exists req. split; [exact Hposts|]. split; [exact Hqty | exact Hprice].
  - exists req'. split; [exact Hposts'|].
    split; [exact Hqty' | exact Hprice'].
Defined.

Lemma kr_cancel_and_revise_requests_witness :
  (∃ req,
     posts_hashed example_exchange
       (cancel_kr_order example_exchange example_int (PStr "0030") None
          "06010")
       req (λ _ _, True) example_world ∧
     params req !! "ORD_QTY" = Some "1" ∧
     params req !! "QTY_ALL_ORD_YN" = Some "Y") ∧
  (∃ req,
     posts_hashed example_exchange
       (revise_kr_order example_exchange example_int (PStr "0030") 70000
          (Some (PInt 3)) "06010")
       req (λ _ _, True) example_world ∧
     params req !! "ORD_QTY" = Some "3" ∧
     params req !! "QTY_ALL_ORD_YN" = Some "N" ∧
     params req !! "ORD_UNPR" = Some "70000").
Proof.
  destruct (kr_cancel_and_revise_requests example_exchange example_int
              (PStr "0030") 70000 None "06010" example_account
              example_world eq_refl) as [Hall _].
  destruct (kr_cancel_and_revise_requests example_exchange example_int
              (PStr "0030") 70000 (Some (PInt 3)) "06010" example_account
              example_world eq_refl) as [_ Hpart].
  split.
  - destruct Hall as [(req & Hposts & _ & _ & _ & Hqty & Hyn) _];
      [by left|].
    exists req. split; [exact Hposts|]. split; [exact Hqty | exact Hyn].
  - destruct (Hpart (PInt 3) 3 eq_refl eq_refl)
      as [_ (req & Hposts & _ & _ & Hprice & Hqty & Hyn)]; [lia|].
    exists req. split; [exact Hposts|].
    split; [exact Hqty | split; [exact Hyn | exact Hprice]].
Defined.

Lemma kr_order_request_witness :
  (∃ req,
     posts_hashed example_exchange
       (_send_kr_order example_exchange "005930" 10 0 true) req
       (λ response r,
          r = list_getitem (outputs response) 0 ∧
          (outputs response = [] →
           r = Raise (IndexError "list index out of range")))
       example_world ∧
     params req !! "ORD_DVSN" = Some "01" ∧
     params req !! "ORD_UNPR" = Some "0") ∧
  (∃ req,
     posts_hashed example_exchange
       (_send_kr_order example_exchange "005930" 10 70000 false) req
       (λ response r,
          r = list_getitem (outputs response) 0 ∧
          (outputs response = [] →
           r = Raise (IndexError "list index out of range")))
       example_world ∧
     tr_id req = Some "TTTC0801U" ∧
     params req !! "ORD_DVSN" = Some "00" ∧
     params req !! "ORD_UNPR" = Some "70000").
Proof.
  split.
  - destruct (kr_order_request example_exchange "005930" 10 0 true
                example_account example_world eq_refl)
      as (req & Hposts & _ & _ & _ & _ & _ & Hmarket & _).
    exists req. split; [exact Hposts|]. apply Hmarket. lia.
  - destruct (kr_order_request example_exchange "005930" 10 70000 false
                example_account example_world eq_refl)
      as (req & Hposts & _ & Htr & _ & _ & _ & _ & Hlimit).
    exists req. split; [exact Hposts|].
    split; [exact Htr | apply Hlimit; lia].
Defined.


Lemma cancel_all_kr_orders_cancels_each_witness :
  ∃ w1 steps,
    get_kr_orders example_exchange example_orders_reshape example_columns
      true 2 example_world
    = Some (Ok ["1"; "2"; "3"], w1) ∧
    cancel_all_kr_orders example_exchange example_orders_reshape
      example_columns example_index example_cell example_int true 2
      example_world
    = Some (Ok (), after w1 (concat ((λ hc, [hc.1; hc.2]) <$> steps))) ∧
    length steps = 3%nat.
Proof.
  destruct (get_kr_orders example_exchange example_orders_reshape
              example_columns true 2 example_world)
    as [[[data|e] w1]|] eqn:Hquery;
    [|vm_compute in Hquery; discriminate Hquery..].
  assert (data = ["1"; "2"; "3"] ∧ account w1 = Some example_account)
    as [-> Haccount].
  { vm_compute in Hquery. by injection Hquery as <- <-. }
  destruct (cancel_all_kr_orders_cancels_each example_exchange
              example_orders_reshape example_columns example_index
              example_cell example_int true 2 ["1"; "2"; "3"]
              example_account example_world w1 Hquery Haccount)
    as [_ Hcancels].
  destruct (Hcancels [PStr "1"; PStr "2"; PStr "3"] eq_refl)
    as (steps & Hrun & Hlen & _).
  - intros log c Hpost. exists example_ack, "c0ffee".
    unfold example_exchange. by rewrite Hpost.
  - by exists w1, steps.
Defined.

Lemma get_kr_ohlcv_one_request_witness :
  ∃ c,
    get_kr_ohlcv example_server example_reshape (λ s, s) "005930" "DAY"
      example_world
    = (Ok ["A"; "B"], after example_world [c]) ∧
    params (call_req c) !! "FID_PERIOD_DIV_CODE" = Some "D".
Proof.
  destruct (get_kr_ohlcv_one_request example_server example_reshape
              (λ s, s) "005930" "DAY" example_world)
    as (c & Hworld & _ & _ & _ & (period & Hperiod & Hday & _) & Hframe).
  exists c. split.
  - rewrite (surjective_pairing (get_kr_ohlcv _ _ _ _ _ _)), Hworld.
    by rewrite (Hframe example_first (example_row "A") [example_row "B"] []
                  eq_refl eq_refl eq_refl).
  - rewrite Hperiod, Hday; [reflexivity | compute_done].
Defined.

Lemma kr_price_getters_witness :
  ∃ c,
    get_kr_current_price (example_transport (λ _, Ok example_quote))
      example_int "005930" example_world
    = (Ok 70000, after example_world [c]) ∧
    get_kr_max_price (example_transport (λ _, Ok example_quote))
      example_int "005930" example_world
    = (Ok 91000, after example_world [c]) ∧
    get_kr_min_price (example_transport (λ _, Ok example_quote))
      example_int "005930" example_world
    = (Raise (KeyError "stck_llam"), after example_world [c]).
Proof.
  destruct (kr_price_getters (example_transport (λ _, Ok example_quote))
              example_int "005930" example_world) as (c & _ & _ & Hgetters).
  exists c. split; [|split].
  - destruct (Hgetters "stck_prpr" _ ltac:(by left)) as (Hw & _ & _ & Hread).
    rewrite (surjective_pairing (get_kr_current_price _ _ _ _)), Hw.
    by rewrite (Hread example_quote _ [] eq_refl eq_refl).
  - destruct (Hgetters "stck_mxpr" _ ltac:(right; by left))
      as (Hw & _ & _ & Hread).
    rewrite (surjective_pairing (get_kr_max_price _ _ _ _)), Hw.
    by rewrite (Hread example_quote _ [] eq_refl eq_refl).
  - destruct (Hgetters "stck_llam" _ ltac:(right; right; by left))
      as (Hw & _ & _ & Hread).
    rewrite (surjective_pairing (get_kr_min_price _ _ _ _)), Hw.
    by rewrite (Hread example_quote _ [] eq_refl eq_refl).
Defined.

Lemma get_os_deposit_on_paper_domain_witness :
  ∃ c,
    get_os_deposit (example_transport (λ _, Ok example_balance)) example_int
      (λ _, Ok (S754_zero false)) example_paper
    = (Ok (inr 1000), after example_paper [c]).
Proof.
  rewrite (get_os_deposit_on_paper_domain
             (example_transport (λ _, Ok example_balance)) example_int
             (λ _, Ok (S754_zero false)) example_paper eq_refl).
  eexists. vm_compute. reflexivity.
Defined.

Lemma get_is_integrate_requests_witness :
  get_is_integrate (example_transport (λ _, Ok example_balance)) example_int
    (λ _, Ok (S754_finite false 1 0)) example_paper
  = (Ok None, example_paper) ∧
  ∃ c1 c2,
    get_is_integrate (example_transport (λ _, Ok example_balance))
      example_int (λ _, Ok (S754_finite false 1 0)) example_world
    = (Ok (Some true), after example_world [c1; c2]) ∧
    call_method c1 = GET ∧ call_method c2 = GET.
Proof.
  destruct (get_is_integrate_requests
              (example_transport (λ _, Ok example_balance)) example_int
              (λ _, Ok (S754_finite false 1 0)) example_paper)
    as [Hpaper _].
  destruct (get_is_integrate_requests
              (example_transport (λ _, Ok example_balance)) example_int
              (λ _, Ok (S754_finite false 1 0)) example_world)
    as [_ Hreal].
  split; [by apply Hpaper|].
  destruct (get_is_integrate (example_transport (λ _, Ok example_balance))
              example_int (λ _, Ok (S754_finite false 1 0)) example_world)
    as [[answer|e] w'] eqn:Hrun;
    [|vm_compute in Hrun; discriminate Hrun].
  destruct (Hreal eq_refl answer w' eq_refl)
    as (c1 & c2 & -> & Hget1 & Hget2 & _).
  exists c1, c2. split; [|split; [exact Hget1 | exact Hget2]].
  f_equal. vm_compute in Hrun. by injection Hrun as <- _.
Defined.

Lemma get_os_orders_by_flag_nothing_to_query_witness :
  get_os_orders_by_flag example_server example_reshape example_columns
    example_known
    ["AMEX"; "NYSE"] true 2 example_world
  = Some (Raise (ValueError "No objects to concatenate"), example_world).
Proof.
  apply (get_os_orders_by_flag_nothing_to_query example_server
           example_reshape example_columns example_known ["AMEX"; "NYSE"] true 2
           example_world).
  repeat constructor.
Defined.

Lemma os_price_getter_witness :
  ∃ c,
    get_os_current_price (example_transport (λ _, Ok example_quote))
      (λ _, Ok (S754_finite false 1 0)) (λ s, s) "AAPL" "NAS" example_world
    = (Ok (S754_finite false 1 0), after example_world [c]) ∧
    params (call_req c) !! "EXCD" = Some "NAS".
Proof.
  destruct (os_price_getter (example_transport (λ _, Ok example_quote))
              (λ _, Ok (S754_finite false 1 0)) (λ s, s) "AAPL" "NAS"
              example_world) as (c & Hw & _ & Hexcd & _ & Hread).
  exists c. split; [|exact Hexcd].
  rewrite (surjective_pairing (get_os_current_price _ _ _ _ _ _)), Hw.
  by rewrite (Hread example_quote _ [] eq_refl eq_refl).
Defined.

Lemma market_and_country_round_trips_witness :
  OverseaInfo.Market_name OverseaInfo.HASE = "HASE" ∧
  OverseaInfo.Country_value OverseaInfo.VN = 5.
Proof.
  destruct market_and_country_round_trips
    as (_ & Hmarket & _ & Hcountry & _).
  split.
  - apply (Hmarket "HASE" OverseaInfo.HASE). reflexivity.
  - apply (Hcountry 5 OverseaInfo.VN). reflexivity.
Defined.

Lemma kr_buyable_cash_request_witness :
  ∃ c,
    get_kr_buyable_cash (example_transport (λ _, Ok example_quote))
      example_int example_world
    = (Ok 1000, after example_world [c]) ∧
    params (call_req c) !! "CANO" = Some "12345678" ∧
    params (call_req c) !! "ORD_UNPR" = Some "0".
Proof.
  destruct (kr_buyable_cash_request
              (example_transport (λ _, Ok example_quote)) example_int
              example_account example_world eq_refl)
    as (c & Hw & _ & Hcano & _ & Hprice & _ & Hread).
  exists c. split; [|split; [exact Hcano | exact Hprice]].
  rewrite (surjective_pairing (get_kr_buyable_cash _ _ _)), Hw.
  by rewrite (Hread example_quote _ [] eq_refl eq_refl).
Defined.

Lemma inquiries_ignore_extra_param_witness :
  ∃ c c',
    _get_inquire_psamount example_server false None
      (Some (dict [("OVRS_EXCG_CD", "SEHK")])) example_world
    = (Ok example_first, after example_world [c]) ∧
    params (call_req c) !! "OVRS_EXCG_CD" = Some "NASD" ∧
    _get_inquire_present_balance example_server None
      (Some (dict [("NATN_CD", "840")])) example_world
    = (Ok example_first, after example_world [c']) ∧
    params (call_req c') !! "NATN_CD" = Some "000".
Proof.
  destruct (inquiries_ignore_extra_param example_server None
              example_account example_world eq_refl)
    as (c & c' & Hps & Hpb & _ & Hexcd & _ & _ & _ & _ & _ & Hnatn & _).
  exists c, c'. split; [|split; [exact Hexcd|split; [|exact Hnatn]]].
  - by rewrite Hps.
  - by rewrite Hpb.
Defined.
